(** * gosyntect: the syntect_server client and its command-line tool

    A shallow embedding of package [gosyntect] (the protocol client) and of
    [cmd/gosyntect] (the command-line adapter).  Go strings are byte
    sequences and are modelled by [string]; Go's [int] is a 64-bit signed
    integer modelled by [Z] with its wrap-around written out; a function
    returning [(T, error)] returns a [result T]; the network, the JSON
    codec and the file system are the variables of a section. *)

From Stdlib Require Import ZArith String Ascii List Bool Lia.
From stdpp Require Import base option list gmap strings.

Local Open Scope string_scope.
Local Open Scope Z_scope.

(* stdpp keeps [simpl] from unfolding the append of strings; the proofs
   below compute with it. *)
#[local] Arguments String.append !s1 s2 : simpl nomatch.

(** ** The parts of Go's standard library the program uses *)

Module Go.

(** [int] on the 64-bit platforms the tool is built for. *)
Definition intSize : Z := 64.
Definition is_int (z : Z) : Prop := - 2 ^ (intSize - 1) <= z < 2 ^ (intSize - 1).
Definition wrap (z : Z) : Z :=
  (z + 2 ^ (intSize - 1)) mod 2 ^ intSize - 2 ^ (intSize - 1).
Definition int_add (a b : Z) : Z := wrap (a + b).

(** [len(s)] *)
Definition len (s : string) : Z := Z.of_nat (String.length s).

(** [s[a:b]] on a string: a run-time panic unless [0 <= a <= b <= len(s)]. *)
Definition slice (s : string) (a b : Z) : option string :=
  if (0 <=? a) && (a <=? b) && (b <=? len s)
  then Some (String.substring (Z.to_nat a) (Z.to_nat (b - a)) s)
  else None.

(** [strings.HasPrefix] *)
Definition HasPrefix (s prefix : string) : bool := String.prefix prefix s.

(** [strings.HasSuffix]: [len(s) >= len(suffix) && s[len(s)-len(suffix):] == suffix] *)
Definition HasSuffix (s suffix : string) : bool :=
  (String.length suffix <=? String.length s)%nat &&
  String.eqb
    (String.substring (String.length s - String.length suffix)
                      (String.length suffix) s)
    suffix.

(** [strings.TrimSuffix] *)
Definition TrimSuffix (s suffix : string) : string :=
  if HasSuffix s suffix
  then String.substring 0 (String.length s - String.length suffix) s
  else s.

(** [strings.Join] *)
Definition Join (elems : list string) (sep : string) : string :=
  String.concat sep elems.

(** [strings.Contains] *)
Fixpoint Contains (s substr : string) : bool :=
  String.prefix substr s ||
  match s with
  | EmptyString => false
  | String _ s' => Contains s' substr
  end.

(** [m[k]] on a [map[int]string]: the zero value when the key is absent. *)
Definition index (m : gmap Z string) (k : Z) : string := default "" (m !! k).

Definition newline : string := String (ascii_of_nat 10) EmptyString.
Definition tab : string := String (ascii_of_nat 9) EmptyString.

(** [strconv.Quote], which the verb [%q] applies, on ASCII input: the
    text between double quotes, with the quote and the backslash escaped,
    the control characters written as Go escape sequences.  A byte from
    128 on is written in hexadecimal, as [strconv.Quote] writes a byte that
    is no part of a valid UTF-8 sequence; valid characters outside ASCII,
    which [strconv.Quote] keeps or writes with a Unicode escape, are
    outside this model, and it is used on ASCII strings only. *)
Definition hexDigit (n : nat) : ascii :=
  ascii_of_nat (if (n <? 10)%nat then 48 + n else 87 + n).

Definition quoteByte (c : ascii) : string :=
  let n := nat_of_ascii c in
  if (n =? 34)%nat then "\" +:+ String c EmptyString
  else if (n =? 92)%nat then "\\"
  else if ((32 <=? n) && (n <=? 126))%nat then String c EmptyString
  else if (n =? 7)%nat then "\a"
  else if (n =? 8)%nat then "\b"
  else if (n =? 12)%nat then "\f"
  else if (n =? 10)%nat then "\n"
  else if (n =? 13)%nat then "\r"
  else if (n =? 9)%nat then "\t"
  else if (n =? 11)%nat then "\v"
  else "\x" +:+ String (hexDigit (n / 16)) (String (hexDigit (n mod 16)) EmptyString).

Fixpoint quoteBody (s : string) : string :=
  match s with
  | EmptyString => EmptyString
  | String c s' => quoteByte c +:+ quoteBody s'
  end.

Definition dquote : string := String (ascii_of_nat 34) EmptyString.

Definition quoteASCII (s : string) : string := dquote +:+ quoteBody s +:+ dquote.

End Go.

(** ** Package gosyntect *)

Module gosyntect.
Import Go.

(** *** Errors

    The three package-level sentinels are values of their own, compared
    by identity; [errors_New] is a fresh [errors.New] or [fmt.Errorf]
    value carrying its message; [Wrap] is [errors.Wrap] of
    github.com/pkg/errors. *)
Inductive error : Type :=
| ErrInvalidTheme
| ErrRequestTooLarge
| ErrPanic
| errors_New (msg : string)
| Wrap (err : error) (message : string).

(** [err.Error()] *)
Fixpoint Error (e : error) : string :=
  match e with
  | ErrInvalidTheme => "invalid theme"
  | ErrRequestTooLarge => "request too large"
  | ErrPanic => "syntect panic while highlighting"
  | errors_New msg => msg
  | Wrap err message => message +:+ ": " +:+ Error err
  end.

(** [errors.Cause] *)
Fixpoint Cause (e : error) : error :=
  match e with
  | Wrap err _ => Cause err
  | _ => e
  end.

Inductive result (A : Type) : Type :=
| Ok (a : A)
| Err (e : error).
Arguments Ok {A} a.
Arguments Err {A} e.

Definition is_Err {A} (r : result A) : bool :=
  match r with Ok _ => false | Err _ => true end.

(** *** Data model *)

Record Query : Type := mkQuery
  { Extension : string;
    Filepath : string;
    Theme : string;
    Scopify : bool;
    Code : string }.

Record ScopifiedRegion : Type := mkRegion
  { Offset : Z;
    Length : Z;
    Scopes : list Z }.

(** The public response. *)
Record Response : Type := mkResponse
  { Data : string;
    Plaintext : bool;
    DetectedLanguage : string;
    ScopifiedScopeNames : gmap Z string;
    ScopifiedRegions : list ScopifiedRegion }.

(** The wire record [response]; its fields carry the prefix [w] because
    they share their names with those of [Response]. *)
Record response : Type := mkWire
  { wData : string;
    wPlaintext : bool;
    wDetectedLanguage : string;
    wScopifiedScopeNames : list string;
    wScopifiedRegions : list ScopifiedRegion;
    wError : string;
    wCode : string }.

(** [for index, scopeName := range names { m[index] = scopeName }],
    entered with [index] and the map built so far. *)
Fixpoint rangeScopeNames (index : Z) (names : list string) (m : gmap Z string)
  : gmap Z string :=
  match names with
  | [] => m
  | scopeName :: rest => rangeScopeNames (index + 1) rest (<[index := scopeName]> m)
  end.

Definition toSuccessResponse (r : response) : Response :=
  let scopifiedScopeNames := rangeScopeNames 0 (wScopifiedScopeNames r) ∅ in
  {| Data := wData r;
     Plaintext := wPlaintext r;
     DetectedLanguage := wDetectedLanguage r;
     ScopifiedScopeNames := scopifiedScopeNames;
     ScopifiedRegions := wScopifiedRegions r |}.

(** *** Client *)

Record Client : Type := mkClient { syntectServer : string }.

Definition url (c : Client) (path : string) : string := syntectServer c +:+ path.

Definition New (syntectServer : string) : Client :=
  {| syntectServer := TrimSuffix syntectServer "/" |}.

(** The request [Highlight] builds, the answer [client.Do] returns for it,
    and what a call does to the outside.  [Sent req] is the one hand-off of
    [req] to [client.Do]; what the HTTP client then puts on the wire for it
    (it follows redirects) is not part of the model. *)
Record Request : Type := mkRequest
  { Method : string;
    URL : string;
    ContentType : string;
    Body : string }.

Record HTTPResponse : Type := mkHTTPResponse
  { StatusCode : Z;
    RespBody : string }.

Definition StatusBadRequest : Z := 400.

Inductive Event : Type :=
| Sent (req : Request)          (* client.Do(req) *)
| Decoding (body : string).     (* json.NewDecoder(resp.Body).Decode(&r) *)

Section Highlight.
(** [strconv.Quote], behind the verb [%q]. *)
Variable Quote : string -> string.
(** [json.Marshal] on a query. *)
Variable Marshal : Query -> result string.
(** [http.NewRequest method url body]: the error, if the request cannot be built. *)
Variable NewRequest : string -> string -> string -> option error.
(** [client.Do]: the transport and the service behind it. *)
Variable Do : Request -> result HTTPResponse.
(** [json.Decoder.Decode] into a [response]. *)
Variable Decode : string -> result response.

(** The [switch r.Code] of [Highlight]. *)
Definition errorOfCode (r : response) : error :=
  if String.eqb (wCode r) "invalid_theme" then ErrInvalidTheme
  else if String.eqb (wCode r) "resource_not_found" then
    errors_New "gosyntect internal error: resource_not_found"
  else if String.eqb (wCode r) "panic" then ErrPanic
  else errors_New ("unknown error=" +:+ Quote (wError r) +:+ " code=" +:+ Quote (wCode r)).

(** [Highlight]: the events of the call in order, and what it returns.
    The tracing span only observes the call and is left out. *)
Definition Highlight (c : Client) (q : Query) : list Event * result Response :=
  match Marshal q with
  | Err err => ([], Err (Wrap err "encoding query"))
  | Ok jsonQuery =>
    match NewRequest "POST" (url c "/") jsonQuery with
    | Some err => ([], Err (Wrap err "building request"))
    | None =>
      let req := {| Method := "POST"; URL := url c "/";
                    ContentType := "application/json"; Body := jsonQuery |} in
      match Do req with
      | Err err => ([Sent req], Err (Wrap err ("making request to " +:+ url c "/")))
      | Ok resp =>
        if StatusCode resp =? StatusBadRequest then ([Sent req], Err ErrRequestTooLarge)
        else
          match Decode (RespBody resp) with
          | Err err =>
            ([Sent req; Decoding (RespBody resp)],
             Err (Wrap err ("decoding JSON response from " +:+ url c "/")))
          | Ok r =>
            if negb (String.eqb (wError r) "") then
              ([Sent req; Decoding (RespBody resp)],
               Err (Wrap (errorOfCode r) (syntectServer c)))
            else
              ([Sent req; Decoding (RespBody resp)], Ok (toSuccessResponse r))
          end
      end
    end
  end.

(** The request built for [q], and the case in which the transport
    answers it with [resp]. *)
Definition requestFor (c : Client) (jsonQuery : string) : Request :=
  {| Method := "POST"; URL := url c "/";
     ContentType := "application/json"; Body := jsonQuery |}.

Definition answered (c : Client) (q : Query) (resp : HTTPResponse) : Prop :=
  exists jsonQuery,
    Marshal q = Ok jsonQuery /\
    NewRequest "POST" (url c "/") jsonQuery = None /\
    Do (requestFor c jsonQuery) = Ok resp.
End Highlight.

(** The addresses the requests of a call went to, and the bodies it decoded. *)
Definition sentURLs (events : list Event) : list string :=
  omap (fun ev => match ev with Sent req => Some (URL req) | Decoding _ => None end) events.

Definition decoded (events : list Event) : list string :=
  omap (fun ev => match ev with Sent _ => None | Decoding body => Some body end) events.

End gosyntect.

(** ** Command gosyntect *)

Module cmd.
Import Go gosyntect.

(** How [main] ends: [os.Exit(code)] (returning from [main] is [Exit 0])
    or a run-time panic, after which the Go runtime writes its report to
    standard error and ends the process with a status of its own. *)
Inductive Status : Type :=
| Exit (code : Z)
| Panic.

(** One run of [main]: what the program itself wrote to the two streams,
    the events of its call, and how it ended.  The report the runtime
    prints after a panic is not part of [stderr]. *)
Record Run : Type := mkRun
  { stdout : string;
    stderr : string;
    network : list Event;
    status : Status }.

(** The text [flag.Usage] is set to write. *)
Definition Usage : string :=
  "usage: gosyntect [-scopify] <server> <theme?> <file>" +:+ newline +:+
  newline +:+
  "  Highlight file to HTML:" +:+ newline +:+
  "  " +:+ tab +:+ "gosyntect <server> <theme> <file>" +:+ newline +:+
  "  " +:+ tab +:+ "gosyntect http://localhost:9238 'InspiredGitHub' gosyntect.go" +:+ newline +:+
  newline +:+
  "  Scopify file as JSON:" +:+ newline +:+
  "  " +:+ tab +:+ "gosyntect -scopify <server> <file>" +:+ newline +:+
  "  " +:+ tab +:+ "gosyntect -scopify http://localhost:9238 gosyntect.go" +:+ newline +:+
  newline.

(** What [flag.PrintDefaults] writes to standard error for the one flag
    the tool declares: its name, then its usage string on a line of its
    own (a boolean flag whose default is false shows no default). *)
Definition PrintDefaults : string :=
  "  -scopify" +:+ newline +:+
  "    " +:+ tab +:+
  "print scopified file regions instead of requesting highlighted HTML" +:+ newline.

(** [flag.NArg()] and [flag.Arg(i)] over the arguments left after the flags. *)
Definition NArg (args : list string) : Z := Z.of_nat (length args).
Definition Arg (args : list string) (i : nat) : string := nth i args "".

(** [log.Fatal(v)] after [log.SetFlags(0)] and [log.SetPrefix]: one line on
    standard error, then [os.Exit(1)]. *)
Definition Fatal (out : string) (net : list Event) (v : string) : Run :=
  {| stdout := out;
     stderr := "gosyntect: " +:+ v +:+ newline;
     network := net;
     status := Exit 1 |}.

(** The inner loop of the rendering:
    [for _, index := range region.Scopes { scopes = append(scopes, names[index]) }] *)
Fixpoint appendScopes (names : gmap Z string) (indexes : list Z) (scopes : list string)
  : list string :=
  match indexes with
  | [] => scopes
  | index :: rest => appendScopes names rest (scopes ++ [Go.index names index])
  end.

Section Main.
Variable Quote : string -> string.
(** [filepath.Base] *)
Variable Base : string -> string.
(** [ioutil.ReadFile] *)
Variable ReadFile : string -> result string.
Variable Marshal : Query -> result string.
Variable NewRequest : string -> string -> string -> option error.
Variable Do : Request -> result HTTPResponse.
Variable Decode : string -> result response.

(** The outer loop [for _, region := range resp.ScopifiedRegions], entered
    with what standard output holds so far.  The slice expression is
    evaluated with no test before it. *)
Fixpoint printRegions (code : string) (names : gmap Z string)
         (regions : list ScopifiedRegion) (out : string) : string * Status :=
  match regions with
  | [] => (out, Exit 0)
  | region :: rest =>
    let scopes := appendScopes names (Scopes region) [] in
    match slice code (Offset region) (int_add (Offset region) (Length region)) with
    | None => (out, Panic)
    | Some sub =>
      printRegions code names rest
        (out +:+ Quote sub +:+ " - " +:+ Join scopes " " +:+ newline)
    end
  end.

(** From [cl := gosyntect.New(server)] to the end of [main]. *)
Definition request (server : string) (query : Query) : Run :=
  let query := {| Extension := Extension query;
                  Filepath := Base (Filepath query);
                  Theme := Theme query;
                  Scopify := Scopify query;
                  Code := Code query |} in
  let cl := New server in
  match Highlight Quote Marshal NewRequest Do Decode cl query with
  | (net, Err err) => Fatal "" net (Error err)
  | (net, Ok resp) =>
    if negb (String.eqb (Data resp) "") then
      {| stdout := Data resp +:+ newline; stderr := ""; network := net;
         status := Exit 0 |}
    else
      let '(out, st) :=
        printRegions (Code query) (ScopifiedScopeNames resp) (ScopifiedRegions resp) "" in
      {| stdout := out; stderr := ""; network := net; status := st |}
  end.

(** [main] from the return of [flag.Parse] on, which has set
    [scopifyFlag] and left [args]; a run that ends inside [flag.Parse]
    (an unknown flag, or the help flag) is not a run of this function. *)
Definition main (scopifyFlag : bool) (args : list string) : Run :=
  if (negb scopifyFlag && negb (NArg args =? 3)) || (scopifyFlag && negb (NArg args =? 2))
  then {| stdout := ""; stderr := PrintDefaults; network := []; status := Exit 2 |}
  else
    let server := Arg args 0 in
    if negb (HasPrefix server "http://") && negb (HasPrefix server "https://")
    then Fatal "" [] "expected server to have http:// or https:// prefix"
    else
      let query := {| Extension := ""; Filepath := ""; Theme := "";
                      Scopify := scopifyFlag; Code := "" |} in
      if negb scopifyFlag then
        let theme := Arg args 1 in
        if String.eqb theme ""
        then Fatal "" [] "theme argument is required (e.x. 'InspiredGitHub')"
        else
          let filepath := Arg args 2 in
          match ReadFile filepath with
          | Err err => Fatal "" [] (Error err)
          | Ok data =>
            request server {| Extension := Extension query; Filepath := filepath;
                              Theme := theme; Scopify := Scopify query; Code := data |}
          end
      else
        let filepath := Arg args 1 in
        match ReadFile filepath with
        | Err err => Fatal "" [] (Error err)
        | Ok data =>
          request server {| Extension := Extension query; Filepath := filepath;
                            Theme := Theme query; Scopify := Scopify query; Code := data |}
        end.

(** The arguments pass every check of [main] and the file holds [data]. *)
Definition expectedArgs (scopifyFlag : bool) : Z := if scopifyFlag then 2 else 3.

Definition fileArg (scopifyFlag : bool) (args : list string) : string :=
  Arg args (if scopifyFlag then 1 else 2)%nat.

Definition accepted (scopifyFlag : bool) (args : list string) (data : string) : Prop :=
  NArg args = expectedArgs scopifyFlag /\
  (HasPrefix (Arg args 0) "http://" = true \/ HasPrefix (Arg args 0) "https://" = true) /\
  (scopifyFlag = false -> Arg args 1 <> "") /\
  ReadFile (fileArg scopifyFlag args) = Ok data.

(** The query [main] hands to [Highlight] for such arguments. *)
Definition queryOf (scopifyFlag : bool) (args : list string) (data : string) : Query :=
  {| Extension := "";
     Filepath := Base (fileArg scopifyFlag args);
     Theme := if scopifyFlag then "" else Arg args 1;
     Scopify := scopifyFlag;
     Code := data |}.
End Main.

End cmd.

(** ** A concrete service, used to run the model on examples *)

Module Demo.
Import Go gosyntect cmd.

Definition Marshal (q : Query) : result string := Ok (Code q).
Definition NewRequest (method url body : string) : option error := None.
Definition Base (path : string) : string := path.
Definition ReadFile (path : string) : result string :=
  if String.eqb path "x.go" then Ok "// x" else Err (errors_New "no such file").

Definition server : string := "http://localhost:9238".
Definition query : Query :=
  {| Extension := ""; Filepath := "x.go"; Theme := "InspiredGitHub";
     Scopify := false; Code := "// x" |}.

(** A service that answers every request with [status] and [body]. *)
Definition answer (status : Z) (body : string) (req : Request) : result HTTPResponse :=
  Ok {| StatusCode := status; RespBody := body |}.
(** A transport that cannot reach the service. *)
Definition unreachable (req : Request) : result HTTPResponse :=
  Err (errors_New "connection refused").

Definition ok : HTTPResponse := {| StatusCode := 200; RespBody := "{}" |}.
Definition bad : HTTPResponse := {| StatusCode := 400; RespBody := "{}" |}.

(** Collaborators that fail: a query that cannot be encoded, an address
    that is no URL, a body that is no JSON. *)
Definition unencodable (q : Query) : result string :=
  Err (errors_New "unsupported value").
Definition malformedURL (method url body : string) : option error :=
  Some (errors_New "invalid URL").
Definition undecodable (body : string) : result response :=
  Err (errors_New "unexpected end of JSON input").

(** A decoder that reads the body [first] as [r1] and any other as [r2]. *)
Definition decodeByBody (first : string) (r1 r2 : response) (body : string)
  : result response :=
  if String.eqb body first then Ok r1 else Ok r2.

(** A decoder that reads every body as [r]. *)
Definition decodeAs (r : response) (body : string) : result response := Ok r.

Definition failure (error code : string) : response :=
  {| wData := ""; wPlaintext := false; wDetectedLanguage := "";
     wScopifiedScopeNames := []; wScopifiedRegions := [];
     wError := error; wCode := code |}.

Definition scopified : response :=
  {| wData := ""; wPlaintext := false; wDetectedLanguage := "Go";
     wScopifiedScopeNames := ["comment"; "string"; "keyword"];
     wScopifiedRegions := [ {| Offset := 0; Length := 3; Scopes := [1] |} ];
     wError := ""; wCode := "" |}.

(** A region that ends after the code, and one that runs backwards. *)
Definition overlong : response :=
  {| wData := ""; wPlaintext := false; wDetectedLanguage := "Go";
     wScopifiedScopeNames := ["comment"];
     wScopifiedRegions := [ {| Offset := 2; Length := 5; Scopes := [0] |} ];
     wError := ""; wCode := "" |}.

Definition backwards : response :=
  {| wData := ""; wPlaintext := false; wDetectedLanguage := "Go";
     wScopifiedScopeNames := ["comment"];
     wScopifiedRegions := [ {| Offset := 2; Length := -1; Scopes := [0] |} ];
     wError := ""; wCode := "" |}.

(** Three regions, the second of which ends after the code. *)
Definition partly : response :=
  {| wData := ""; wPlaintext := false; wDetectedLanguage := "Go";
     wScopifiedScopeNames := ["comment"];
     wScopifiedRegions := [ {| Offset := 0; Length := 2; Scopes := [0] |};
                            {| Offset := 2; Length := 5; Scopes := [0] |};
                            {| Offset := 0; Length := 1; Scopes := [0] |} ];
     wError := ""; wCode := "" |}.

Definition highlighted (html : string) : response :=
  {| wData := html; wPlaintext := false; wDetectedLanguage := "Go";
     wScopifiedScopeNames := []; wScopifiedRegions := [];
     wError := ""; wCode := "" |}.
End Demo.

(** * Properties *)

Import Go gosyntect cmd.

(** ** Strings *)

Section Strings.
Implicit Types s t u : string.

Lemma append_nil_r s : s +:+ "" = s.
Proof. induction s as [|a s IH]; cbn; [reflexivity | f_equal; exact IH]. Qed.

Lemma append_assoc s t u : (s +:+ t) +:+ u = s +:+ t +:+ u.
Proof. induction s as [|a s IH]; cbn; [reflexivity | f_equal; exact IH]. Qed.

Lemma length_append s t :
  String.length (s +:+ t) = (String.length s + String.length t)%nat.
Proof. induction s as [|a s IH]; cbn; [reflexivity | f_equal; exact IH]. Qed.

Lemma substring_zero_zero s : String.substring 0 0 s = "".
Proof. destruct s; reflexivity. Qed.

Lemma substring_whole s : String.substring 0 (String.length s) s = s.
Proof. induction s as [|a s IH]; cbn; [reflexivity | f_equal; exact IH]. Qed.

Lemma substring_append_l s t :
  String.substring 0 (String.length s) (s +:+ t) = s.
Proof.
  induction s as [|a s IH]; cbn.
  - apply substring_zero_zero.
  - f_equal; exact IH.
Qed.

Lemma substring_append_r s t n :
  String.substring (String.length s) n (s +:+ t) = String.substring 0 n t.
Proof. induction s as [|a s IH]; simpl; [reflexivity | exact IH]. Qed.

Lemma prefix_refl s : String.prefix s s = true.
Proof.
  induction s as [|a s IH]; simpl; [reflexivity |].
  destruct (ascii_dec a a); [exact IH | congruence].
Qed.

Lemma prefix_append s t : String.prefix s (s +:+ t) = true.
Proof.
  induction s as [|a s IH]; simpl.
  - destruct t; reflexivity.
  - destruct (ascii_dec a a); [exact IH | congruence].
Qed.

Lemma Contains_append s t u : Contains (s +:+ t +:+ u) t = true.
Proof.
  induction s as [|a s IH].
  - change ("" +:+ t +:+ u) with (t +:+ u).
    pose proof (prefix_append t u) as H.
    destruct (t +:+ u); cbn [Contains]; rewrite H; reflexivity.
  - cbn [String.append Contains]. rewrite IH. apply orb_true_r.
Qed.

Lemma prefix_append_mono t : forall s u,
  String.prefix t s = true -> String.prefix t (s +:+ u) = true.
Proof.
  induction t as [|b t IH]; intros [|d s] u; cbn; try congruence.
  - now destruct u.
  - destruct (ascii_dec b d); [apply IH | congruence].
Qed.

Lemma Contains_append_mono s t u :
  Contains s t = true -> Contains (s +:+ u) t = true.
Proof.
  induction s as [|a s IH]; cbn [Contains String.append]; intros H.
  - rewrite orb_false_r in H. destruct t; [| discriminate].
    destruct u; reflexivity.
  - apply orb_true_iff in H as [H|H].
    + change (String a (s +:+ u)) with (String a s +:+ u).
      now rewrite (prefix_append_mono _ _ u H).
    + rewrite (IH H). apply orb_true_r.
Qed.

Lemma Contains_append_r s t : Contains (s +:+ t) t = true.
Proof. rewrite <- (append_nil_r t) at 1. apply Contains_append. Qed.

Lemma Contains_append_l t u : Contains (t +:+ u) t = true.
Proof. apply (Contains_append "" t u). Qed.

(** A string ends with the separator exactly when it is some string
    followed by it. *)
Lemma HasSuffix_append s t : HasSuffix (s +:+ t) t = true.
Proof.
  unfold HasSuffix. rewrite length_append.
  replace (String.length s + String.length t - String.length t)%nat
    with (String.length s) by lia.
  rewrite substring_append_r, substring_whole, String.eqb_refl.
  rewrite andb_true_r. apply Nat.leb_le. lia.
Qed.

Lemma TrimSuffix_append s t : TrimSuffix (s +:+ t) t = s.
Proof.
  unfold TrimSuffix. rewrite HasSuffix_append, length_append.
  replace (String.length s + String.length t - String.length t)%nat
    with (String.length s) by lia.
  apply substring_append_l.
Qed.

Lemma TrimSuffix_none s t : HasSuffix s t = false -> TrimSuffix s t = s.
Proof. unfold TrimSuffix. now intros ->. Qed.
End Strings.

(** ** The projection of the wire record *)

Lemma rangeScopeNames_lookup (names : list string) :
  forall (index : Z) (m : gmap Z string) (i : Z),
    rangeScopeNames index names m !! i =
      if decide (index <= i < index + Z.of_nat (length names))
      then names !! Z.to_nat (i - index)
      else m !! i.
Proof.
  induction names as [|name rest IH]; intros index m i; cbn [rangeScopeNames].
  - case_decide; [cbn [length] in *; lia | reflexivity].
  - rewrite IH. cbn [length]. rewrite Nat2Z.inj_succ.
    repeat case_decide; try lia.
    + replace (Z.to_nat (i - index)) with (S (Z.to_nat (i - (index + 1)))) by lia.
      reflexivity.
    + assert (i = index) as -> by lia.
      rewrite lookup_insert_eq, Z.sub_diag. reflexivity.
    + rewrite lookup_insert_ne by lia. reflexivity.
Qed.

(** C3: the public response carries, under each index [i] with
    [0 <= i < len(scopified_scope_names)], the [i]-th scope name and has no
    other key; Data, Plaintext, DetectedLanguage and ScopifiedRegions are
    those of the wire record. *)
Theorem toSuccessResponse_projection (r : response) :
  (forall i : Z,
      ScopifiedScopeNames (toSuccessResponse r) !! i =
        if decide (0 <= i < Z.of_nat (length (wScopifiedScopeNames r)))
        then wScopifiedScopeNames r !! Z.to_nat i
        else None) /\
  (forall n : nat,
      ScopifiedScopeNames (toSuccessResponse r) !! Z.of_nat n = wScopifiedScopeNames r !! n) /\
  Data (toSuccessResponse r) = wData r /\
  Plaintext (toSuccessResponse r) = wPlaintext r /\
  DetectedLanguage (toSuccessResponse r) = wDetectedLanguage r /\
  ScopifiedRegions (toSuccessResponse r) = wScopifiedRegions r.
Proof.
  assert (forall i : Z,
      ScopifiedScopeNames (toSuccessResponse r) !! i =
        if decide (0 <= i < Z.of_nat (length (wScopifiedScopeNames r)))
        then wScopifiedScopeNames r !! Z.to_nat i
        else None) as Hlookup.
  { intros i. cbn [toSuccessResponse ScopifiedScopeNames].
    rewrite rangeScopeNames_lookup, Z.sub_0_r, Z.add_0_l, lookup_empty.
    reflexivity. }
  split; [exact Hlookup |].
  split; [| repeat split].
  intros n. rewrite Hlookup, Nat2Z.id.
  case_decide as Hn; [reflexivity |].
  symmetry. apply lookup_ge_None. lia.
Qed.

(** ** The base address *)

(** C5: [New] stores the address without its trailing separator; a call
    whose query encodes and whose request builds hands [client.Do] one
    request, for exactly the stored address followed by the separator, and
    no call hands it a request for anything else; with either spelling of
    the example address that is exactly the address with one separator. *)
Theorem New_strips_and_url_appends
    (Quote : string -> string) (Marshal : Query -> result string)
    (NewRequest : string -> string -> string -> option error)
    (Do : Request -> result HTTPResponse) (Decode : string -> result response) :
  (forall s, syntectServer (New (s +:+ "/")) = s) /\
  (forall s, HasSuffix s "/" = false -> syntectServer (New s) = s) /\
  (forall c q,
      let urls := sentURLs (fst (Highlight Quote Marshal NewRequest Do Decode c q)) in
      urls = [] \/ urls = [syntectServer c +:+ "/"]) /\
  (forall q,
      let urls := sentURLs (fst (Highlight Quote Marshal NewRequest Do Decode
                                            (New "http://localhost:9238") q)) in
      urls = [] \/ urls = ["http://localhost:9238/"]) /\
  (forall q,
      let urls := sentURLs (fst (Highlight Quote Marshal NewRequest Do Decode
                                            (New "http://localhost:9238/") q)) in
      urls = [] \/ urls = ["http://localhost:9238/"]) /\
  (forall c q jsonQuery,
      Marshal q = Ok jsonQuery ->
      NewRequest "POST" (syntectServer c +:+ "/") jsonQuery = None ->
      sentURLs (fst (Highlight Quote Marshal NewRequest Do Decode c q)) =
        [syntectServer c +:+ "/"]) /\
  (forall q jsonQuery,
      Marshal q = Ok jsonQuery ->
      NewRequest "POST" "http://localhost:9238/" jsonQuery = None ->
      sentURLs (fst (Highlight Quote Marshal NewRequest Do Decode
                               (New "http://localhost:9238") q)) =
        ["http://localhost:9238/"]) /\
  (forall q jsonQuery,
      Marshal q = Ok jsonQuery ->
      NewRequest "POST" "http://localhost:9238/" jsonQuery = None ->
      sentURLs (fst (Highlight Quote Marshal NewRequest Do Decode
                               (New "http://localhost:9238/") q)) =
        ["http://localhost:9238/"]).
Proof.
  assert (forall c q,
      let urls := sentURLs (fst (Highlight Quote Marshal NewRequest Do Decode c q)) in
      urls = [] \/ urls = [syntectServer c +:+ "/"]) as Hurl.
  { intros c q. unfold Highlight.
    destruct (Marshal q) as [jsonQuery|]; [| now left].
    destruct (NewRequest _ _ _); [now left |].
    destruct (Do _) as [resp|]; [| now right].
    destruct (StatusCode resp =? StatusBadRequest); [now right |].
    destruct (Decode _) as [r|]; [| now right].
    destruct (negb _); now right. }
  assert (forall c q jsonQuery,
      Marshal q = Ok jsonQuery ->
      NewRequest "POST" (syntectServer c +:+ "/") jsonQuery = None ->
      sentURLs (fst (Highlight Quote Marshal NewRequest Do Decode c q)) =
        [syntectServer c +:+ "/"]) as Hsent.
  { intros c q jsonQuery HM HN. unfold Highlight, url. rewrite HM, HN.
    destruct (Do _) as [resp|]; [| reflexivity].
    destruct (StatusCode resp =? StatusBadRequest); [reflexivity |].
    destruct (Decode _) as [r|]; [| reflexivity].
    destruct (negb _); reflexivity. }
  split; [intros s; apply TrimSuffix_append |].
  split; [intros s; apply TrimSuffix_none |].
  split; [exact Hurl |].
  split; [intros q; apply Hurl |].
  split; [intros q; apply Hurl |].
  split; [exact Hsent |].
  split; intros q jsonQuery HM HN.
  - exact (Hsent (New "http://localhost:9238") q jsonQuery HM HN).
  - exact (Hsent (New "http://localhost:9238/") q jsonQuery HM HN).
Qed.

(** ** Response handling of [Highlight] *)

Section HighlightProperties.
Variable Quote : string -> string.
Variable Marshal : Query -> result string.
Variable NewRequest : string -> string -> string -> option error.
Variable Do : Request -> result HTTPResponse.
Variable Decode : string -> result response.

Local Abbreviation highlight := (Highlight Quote Marshal NewRequest Do Decode).
Local Abbreviation answered := (answered Marshal NewRequest Do).

(** Once the transport has answered, only the status and the decoder
    decide what [Highlight] does. *)
Lemma Highlight_answered c q resp :
  answered c q resp ->
  exists req,
    URL req = url c "/" /\
    highlight c q =
      if StatusCode resp =? StatusBadRequest then ([Sent req], Err ErrRequestTooLarge)
      else match Decode (RespBody resp) with
           | Err err =>
             ([Sent req; Decoding (RespBody resp)],
              Err (Wrap err ("decoding JSON response from " +:+ url c "/")))
           | Ok r =>
             ([Sent req; Decoding (RespBody resp)],
              if negb (String.eqb (wError r) "")
              then Err (Wrap (errorOfCode Quote r) (syntectServer c))
              else Ok (toSuccessResponse r))
           end.
Proof.
  intros (jsonQuery & HM & HN & HD). exists (requestFor c jsonQuery).
  split; [reflexivity |].
  unfold Highlight. rewrite HM, HN. fold (requestFor c jsonQuery). rewrite HD.
  destruct (StatusCode resp =? StatusBadRequest); [reflexivity |].
  destruct (Decode (RespBody resp)) as [r|]; [| reflexivity].
  destruct (negb _); reflexivity.
Qed.

(** C1: when the status is not 400 and the body decodes to the record
    [r], the call fails exactly when [r.Error] is not empty, and then the
    error is the one [r.Code] selects by exact comparison, wrapped with the
    address; a code that differs in case only is an unknown code. *)
Theorem Highlight_error_code_selects c q resp r :
  answered c q resp ->
  StatusCode resp <> 400 ->
  Decode (RespBody resp) = Ok r ->
  (is_Err (snd (highlight c q)) = true <-> wError r <> "") /\
  (wError r = "" -> snd (highlight c q) = Ok (toSuccessResponse r)) /\
  (wError r <> "" ->
     exists err,
       snd (highlight c q) = Err (Wrap err (syntectServer c)) /\
       (wCode r = "invalid_theme" -> err = ErrInvalidTheme) /\
       (wCode r = "resource_not_found" ->
          err = errors_New "gosyntect internal error: resource_not_found") /\
       (wCode r = "panic" -> err = ErrPanic) /\
       (wCode r <> "invalid_theme" -> wCode r <> "resource_not_found" ->
        wCode r <> "panic" ->
          err = errors_New ("unknown error=" +:+ Quote (wError r) +:+
                            " code=" +:+ Quote (wCode r))) /\
       (wCode r = "Invalid_Theme" ->
          err = errors_New ("unknown error=" +:+ Quote (wError r) +:+
                            " code=" +:+ Quote "Invalid_Theme"))).
Proof.
  intros Hans Hstatus Hdec.
  destruct (Highlight_answered c q resp Hans) as (req & _ & ->).
  apply Z.eqb_neq in Hstatus. unfold StatusBadRequest. rewrite Hstatus, Hdec.
  cbn [snd].
  destruct (String.eqb_spec (wError r) "") as [He|He]; cbn [negb is_Err].
  - repeat split; try congruence; intros; congruence.
  - split; [split; [intros _; exact He | reflexivity] |].
    split; [intros; congruence |].
    intros _. exists (errorOfCode Quote r). split; [reflexivity |].
    unfold errorOfCode.
    repeat split; intros; repeat
      match goal with
      | H : wCode r = _ |- _ => rewrite H; clear H
      | H : wCode r <> ?s |- context [String.eqb (wCode r) ?s] =>
        rewrite (proj2 (String.eqb_neq (wCode r) s) H)
      end; reflexivity.
Qed.

(** C2: on status 400 the call returns [ErrRequestTooLarge] and the body
    never reaches the decoder, whatever the body holds and whatever the
    decoder would make of it. *)
Theorem Highlight_bad_request_too_large c q resp :
  answered c q resp ->
  StatusCode resp = 400 ->
  snd (highlight c q) = Err ErrRequestTooLarge /\
  decoded (fst (highlight c q)) = [].
Proof.
  intros Hans Hstatus.
  destruct (Highlight_answered c q resp Hans) as (req & _ & ->).
  rewrite Hstatus. cbn. split; reflexivity.
Qed.

(** C4, as amended: an error returned once the request has gone to the
    transport names the configured address, unless it is the bare
    [ErrRequestTooLarge] of status 400: the transport error and the
    decoding error carry the address followed by the separator, the four
    errors selected by the code are wrapped with the address itself. *)
Theorem Highlight_error_names_server c q e :
  snd (highlight c q) = Err e ->
  sentURLs (fst (highlight c q)) <> [] ->
  e <> ErrRequestTooLarge ->
  Contains (Error e) (syntectServer c) = true /\
  exists cause context, e = Wrap cause context /\ Contains context (syntectServer c) = true.
Proof.
  unfold Highlight.
  destruct (Marshal q) as [jsonQuery|]; [| cbn; congruence].
  destruct (NewRequest _ _ _); [cbn; congruence |].
  assert (forall cause context,
             Contains context (syntectServer c) = true ->
             Contains (Error (Wrap cause context)) (syntectServer c) = true /\
             exists cause' context',
               Wrap cause context = Wrap cause' context' /\
               Contains context' (syntectServer c) = true) as Hwrap.
  { intros cause context Hc. split; [| eauto].
    cbn [Error]. now apply Contains_append_mono. }
  destruct (Do _) as [resp|err].
  - destruct (StatusCode resp =? StatusBadRequest); cbn [snd fst].
    + congruence.
    + destruct (Decode _) as [r|err]; [destruct (negb _) |]; cbn [snd];
        intros [= <-] _ _; apply Hwrap.
      * rewrite <- (append_nil_r (syntectServer c)) at 1.
        apply Contains_append_l.
      * exact (Contains_append "decoding JSON response from " (syntectServer c) "/").
  - cbn [snd]. intros [= <-] _ _. apply Hwrap.
    exact (Contains_append "making request to " (syntectServer c) "/").
Qed.
End HighlightProperties.

(** ** The command-line tool *)

(** The 64-bit sum of an offset and a length is their sum whenever that
    fits, and a slice succeeds exactly on an ordered range within the string. *)
Lemma wrap_small (z : Z) : is_int z -> wrap z = z.
Proof.
  unfold is_int, wrap, intSize. intros H.
  rewrite Z.mod_small by (cbn in *; lia). lia.
Qed.

Lemma wrap_overflow (z : Z) :
  2 ^ (intSize - 1) <= z < 2 ^ intSize -> wrap z = z - 2 ^ intSize.
Proof.
  unfold wrap, intSize.
  change (2 ^ (64 - 1)) with 9223372036854775808.
  change (2 ^ 64) with 18446744073709551616.
  intros H.
  replace (z + 9223372036854775808)
    with (z - 9223372036854775808 + 1 * 18446744073709551616) by lia.
  rewrite Z.mod_add by lia. rewrite Z.mod_small by lia. lia.
Qed.

Lemma slice_Some (s : string) (a b : Z) :
  0 <= a <= b -> b <= len s ->
  slice s a b = Some (String.substring (Z.to_nat a) (Z.to_nat (b - a)) s).
Proof.
  intros Hab Hb. unfold slice.
  rewrite (proj2 (Z.leb_le 0 a)), (proj2 (Z.leb_le a b)), (proj2 (Z.leb_le b (len s)));
    [reflexivity | lia ..].
Qed.

Lemma slice_None (s : string) (a b : Z) :
  slice s a b = None <-> ~ (0 <= a <= b /\ b <= len s).
Proof.
  unfold slice.
  destruct (Z.leb_spec 0 a) as [Ha|Ha], (Z.leb_spec a b) as [Hab|Hab],
           (Z.leb_spec b (len s)) as [Hb|Hb]; cbn;
    split; intros Hs; try discriminate; try reflexivity; try lia.
Qed.

Lemma region_slice_None (code : string) (region : ScopifiedRegion) :
  is_int (len code) -> is_int (Offset region) -> is_int (Length region) ->
  slice code (Offset region) (int_add (Offset region) (Length region)) = None <->
  ~ (0 <= Offset region /\ 0 <= Length region /\
     Offset region + Length region <= len code).
Proof.
  intros Hc Ho Hl. rewrite slice_None. unfold int_add.
  destruct (Z_lt_le_dec (Offset region + Length region) (- 2 ^ (intSize - 1))) as [Hlow|Hlow];
    [| destruct (Z_lt_le_dec (Offset region + Length region) (2 ^ (intSize - 1))) as [Hhigh|Hhigh]].
  - unfold is_int, intSize in *. cbn in *. split; intros _; lia.
  - rewrite wrap_small by (unfold is_int; lia). split; intros H; lia.
  - rewrite wrap_overflow by (unfold is_int, intSize in *; cbn in *; lia).
    unfold is_int, intSize in *. cbn in *. split; intros _; lia.
Qed.

Lemma appendScopes_map (names : gmap Z string) (indexes : list Z) :
  forall scopes : list string,
    appendScopes names indexes scopes = (scopes ++ map (Go.index names) indexes)%list.
Proof.
  induction indexes as [|i rest IH]; intros scopes; cbn [appendScopes map].
  - now rewrite app_nil_r.
  - rewrite IH, <- app_assoc. reflexivity.
Qed.

Section MainProperties.
Variable Quote : string -> string.
Variable Base : string -> string.
Variable ReadFile : string -> result string.
Variable Marshal : Query -> result string.
Variable NewRequest : string -> string -> string -> option error.
Variable Do : Request -> result HTTPResponse.
Variable Decode : string -> result response.

Local Abbreviation highlight := (Highlight Quote Marshal NewRequest Do Decode).
Local Abbreviation main := (main Quote Base ReadFile Marshal NewRequest Do Decode).
Local Abbreviation request := (request Quote Base Marshal NewRequest Do Decode).
Local Abbreviation accepted := (accepted ReadFile).
Local Abbreviation printRegions := (printRegions Quote).

(** The line printed for one region. *)
Let line (code : string) (names : gmap Z string) (region : ScopifiedRegion) : string :=
  Quote (String.substring (Z.to_nat (Offset region)) (Z.to_nat (Length region)) code)
  +:+ " - " +:+ Join (map (Go.index names) (Scopes region)) " " +:+ newline.

Lemma main_accepted scopifyFlag args data :
  accepted scopifyFlag args data ->
  main scopifyFlag args =
    match highlight (New (Arg args 0)) (queryOf Base scopifyFlag args data) with
    | (net, Err err) => Fatal "" net (Error err)
    | (net, Ok resp) =>
      if negb (String.eqb (Data resp) "") then
        {| stdout := Data resp +:+ newline; stderr := ""; network := net;
           status := Exit 0 |}
      else
        {| stdout := fst (printRegions data (ScopifiedScopeNames resp)
                                       (ScopifiedRegions resp) "");
           stderr := ""; network := net;
           status := snd (printRegions data (ScopifiedScopeNames resp)
                                       (ScopifiedRegions resp) "") |}
    end.
Proof.
  intros (Hn & Hserver & Htheme & Hfile). unfold cmd.main.
  rewrite Hn.
  assert (negb (HasPrefix (Arg args 0) "http://") &&
          negb (HasPrefix (Arg args 0) "https://") = false) as ->.
  { destruct Hserver as [-> | ->]; [reflexivity | apply andb_false_r]. }
  unfold fileArg in Hfile.
  destruct scopifyFlag; cbn [expectedArgs negb andb orb Z.eqb Pos.eqb] in *.
  - rewrite Hfile. unfold cmd.request, queryOf, fileArg.
    cbn [Code Filepath Theme Scopify Extension].
    destruct (highlight _ _) as [net [resp|err]]; [| reflexivity].
    destruct (negb _); [reflexivity |].
    now destruct (printRegions _ _ _ _).
  - destruct (String.eqb_spec (Arg args 1) "") as [He|_]; [now apply Htheme in He |].
    rewrite Hfile. unfold cmd.request, queryOf, fileArg.
    cbn [Code Filepath Theme Scopify Extension].
    destruct (highlight _ _) as [net [resp|err]]; [| reflexivity].
    destruct (negb _); [reflexivity |].
    now destruct (printRegions _ _ _ _).
Qed.

Lemma printRegions_in_range code names regions :
  is_int (len code) ->
  Forall (fun region => 0 <= Offset region /\ 0 <= Length region /\
                        Offset region + Length region <= len code) regions ->
  forall out,
    printRegions code names regions out =
      (out +:+ foldr (fun region rest => line code names region +:+ rest) "" regions,
       Exit 0).
Proof.
  intros Hc Hall. induction Hall as [|region rest (Ho & Hl & Hsum) _ IH]; intros out.
  - cbn. now rewrite append_nil_r.
  - cbn [cmd.printRegions foldr].
    unfold int_add. rewrite wrap_small by (unfold is_int in *; lia).
    rewrite slice_Some by lia.
    replace (Offset region + Length region - Offset region) with (Length region) by lia.
    rewrite IH, appendScopes_map. cbn [app]. unfold line.
    now rewrite !append_assoc.
Qed.

Lemma printRegions_status code names regions :
  is_int (len code) ->
  Forall (fun region => is_int (Offset region) /\ is_int (Length region)) regions ->
  forall out,
    (snd (printRegions code names regions out) = Panic <->
     Exists (fun region => ~ (0 <= Offset region /\ 0 <= Length region /\
                              Offset region + Length region <= len code)) regions) /\
    (snd (printRegions code names regions out) = Exit 0 <->
     Forall (fun region => 0 <= Offset region /\ 0 <= Length region /\
                           Offset region + Length region <= len code) regions).
Proof.
  intros Hc Hint. induction Hint as [|region rest (Ho & Hl) _ IH]; intros out.
  - cbn. split; split; intros H; try discriminate; try constructor.
    inversion H.
  - cbn [cmd.printRegions].
    pose proof (region_slice_None code region Hc Ho Hl) as Hslice.
    destruct (slice code _ _) as [sub|].
    + assert (0 <= Offset region /\ 0 <= Length region /\
              Offset region + Length region <= len code) as Hok.
      { destruct (decide (0 <= Offset region /\ 0 <= Length region /\
                          Offset region + Length region <= len code)) as [?|Hno];
          [assumption | now apply Hslice in Hno]. }
      destruct (IH (out +:+ Quote sub +:+ " - " +:+
                    Join (appendScopes names (Scopes region) []) " " +:+ newline))
        as [IHp IHe].
      split; [rewrite IHp | rewrite IHe].
      * split; [now right | intros H; inversion H; subst; [contradiction | assumption]].
      * split; [now constructor | intros H; now inversion H].
    + cbn [snd]. assert (Hno := proj1 Hslice eq_refl).
      split; split; intros H; try discriminate; try reflexivity.
      * now left.
      * inversion H; subst. contradiction.
Qed.

Lemma printRegions_ends code names regions :
  forall out,
    snd (printRegions code names regions out) = Exit 0 \/
    snd (printRegions code names regions out) = Panic.
Proof.
  induction regions as [|region rest IH]; intros out; cbn [cmd.printRegions].
  - now left.
  - destruct (slice code _ _); [apply IH | now right].
Qed.

(** C6, as amended: when the arguments are accepted and the service answers
    with regions (no Data) that lie within the submitted code, the tool prints
    for each region, in the order of the response, the quoted substring at
    its offset and length, a dash between spaces, the names of its scopes
    joined by spaces, and a newline; it prints nothing else and ends with
    status 0. *)
Theorem scopify_prints_regions scopifyFlag args data net resp :
  accepted scopifyFlag args data ->
  highlight (New (Arg args 0)) (queryOf Base scopifyFlag args data) = (net, Ok resp) ->
  Data resp = "" ->
  is_int (len data) ->
  Forall (fun region => 0 <= Offset region /\ 0 <= Length region /\
                        Offset region + Length region <= len data)
         (ScopifiedRegions resp) ->
  main scopifyFlag args =
    {| stdout :=
         foldr (fun region rest =>
                  Quote (String.substring (Z.to_nat (Offset region))
                                          (Z.to_nat (Length region)) data)
                  +:+ " - "
                  +:+ Join (map (Go.index (ScopifiedScopeNames resp)) (Scopes region)) " "
                  +:+ newline +:+ rest)
               "" (ScopifiedRegions resp);
       stderr := "";
       network := net;
       status := Exit 0 |}.
Proof.
  intros Hacc Hcall Hdata Hlen Hall.
  rewrite (main_accepted _ _ _ Hacc), Hcall, Hdata. cbn [String.eqb negb].
  rewrite (printRegions_in_range _ _ _ Hlen Hall). cbn [fst snd String.append].
  f_equal. clear. induction (ScopifiedRegions resp) as [|region rest IH]; cbn [foldr].
  - reflexivity.
  - rewrite IH. unfold line. now rewrite !append_assoc.
Qed.

(** C7, as amended: once [flag.Parse] has returned, the tool goes on
    exactly when it is given three arguments in highlight mode or two in
    scopify mode; on every other count it writes what [flag.PrintDefaults]
    prints (the flag and its usage string), which is not the usage text set
    in [flag.Usage], to standard error and nothing to standard output,
    sends nothing and ends through [os.Exit(2)]. *)
Theorem main_argument_count (scopifyFlag : bool) (args : list string) :
  (NArg args <> (if scopifyFlag then 2 else 3) <->
   main scopifyFlag args =
     {| stdout := ""; stderr := PrintDefaults; network := []; status := Exit 2 |}) /\
  (NArg args = (if scopifyFlag then 2 else 3) <->
   status (main scopifyFlag args) <> Exit 2) /\
  String.eqb PrintDefaults Usage = false /\
  Contains PrintDefaults "usage: gosyntect" = false.
Proof.
  assert (NArg args = (if scopifyFlag then 2 else 3) ->
          status (main scopifyFlag args) <> Exit 2) as Hgo.
  { intros Hn. unfold cmd.main.
    assert ((negb scopifyFlag && negb (NArg args =? 3))
            || (scopifyFlag && negb (NArg args =? 2)) = false) as ->.
    { rewrite Hn. now destruct scopifyFlag. }
    assert (forall server query, status (request server query) <> Exit 2) as Hreq.
    { intros server query. unfold cmd.request.
      destruct (highlight _ _) as [net [resp|err]]; [| discriminate].
      destruct (negb _); [discriminate |].
      pose proof (printRegions_ends (Code query) (ScopifiedScopeNames resp)
                                    (ScopifiedRegions resp) "") as Hend.
      cbn [Code]. destruct (printRegions _ _ _ _) as [out st].
      cbn in *. destruct Hend as [-> | ->]; discriminate. }
    destruct (negb (HasPrefix _ _) && _); [discriminate |].
    destruct (negb scopifyFlag).
    - destruct (String.eqb _ _); [discriminate |].
      destruct (ReadFile _); [apply Hreq | discriminate].
    - destruct (ReadFile _); [apply Hreq | discriminate]. }
  assert (NArg args <> (if scopifyFlag then 2 else 3) ->
          main scopifyFlag args =
            {| stdout := ""; stderr := PrintDefaults; network := []; status := Exit 2 |})
    as Hstop.
  { intros Hn. unfold cmd.main.
    assert ((negb scopifyFlag && negb (NArg args =? 3))
            || (scopifyFlag && negb (NArg args =? 2)) = true) as ->; [| reflexivity].
    destruct scopifyFlag; cbn [negb andb orb];
      [| rewrite orb_false_r]; apply negb_true_iff, Z.eqb_neq, Hn. }
  split; [| split; [| split; reflexivity]]; split.
  - exact Hstop.
  - intros Hrun Hn. apply (Hgo Hn). now rewrite Hrun.
  - exact Hgo.
  - intros Hst. destruct (decide (NArg args = (if scopifyFlag then 2 else 3))) as [|Hn];
      [assumption |].
    exfalso. apply Hst. now rewrite (Hstop Hn).
Qed.

(** C8: a server argument with neither scheme prefix, and in highlight
    mode an empty theme argument, end the run with a non-zero status
    before anything is sent or printed to standard output; when the
    argument count is right the run ends in the fatal log line of the
    failed check, with status 1. *)
Theorem main_rejects_server_and_theme (scopifyFlag : bool) (args : list string) :
  (HasPrefix (Arg args 0) "http://" = false /\ HasPrefix (Arg args 0) "https://" = false) \/
  (scopifyFlag = false /\ Arg args 1 = "") ->
  network (main scopifyFlag args) = [] /\
  stdout (main scopifyFlag args) = "" /\
  (status (main scopifyFlag args) = Exit 1 \/ status (main scopifyFlag args) = Exit 2) /\
  (NArg args = (if scopifyFlag then 2 else 3) ->
   status (main scopifyFlag args) = Exit 1 /\
   stderr (main scopifyFlag args) =
     if negb (HasPrefix (Arg args 0) "http://") && negb (HasPrefix (Arg args 0) "https://")
     then "gosyntect: expected server to have http:// or https:// prefix" +:+ newline
     else "gosyntect: theme argument is required (e.x. 'InspiredGitHub')" +:+ newline).
Proof.
  intros Hbad. unfold cmd.main.
  destruct ((negb scopifyFlag && negb (NArg args =? 3))
            || (scopifyFlag && negb (NArg args =? 2))) eqn:Hcount.
  - cbn [network stdout status stderr].
    split; [reflexivity |]. split; [reflexivity |]. split; [now right |].
    intros Hn. exfalso. rewrite Hn in Hcount.
    destruct scopifyFlag; discriminate.
  - destruct Hbad as [[-> ->] | [-> ->]].
    + cbn [negb andb Fatal network stdout status stderr].
      split; [reflexivity |]. split; [reflexivity |]. split; [now left |].
      intros _. split; reflexivity.
    + cbn [negb String.eqb].
      destruct (negb (HasPrefix _ _) && _);
        cbn [Fatal network stdout status stderr];
        (split; [reflexivity |]; split; [reflexivity |]; split; [now left |];
         intros _; split; reflexivity).
Qed.

(** C9: the rendering slices the submitted code at each region with no
    test before it.  For regions whose fields are Go integers the run ends
    in a panic exactly when some region is not an ordered range within the
    code; so it is free of panics only if every region has a non-negative
    offset and an end within the byte length of the code. *)
Theorem scopify_slices_unguarded scopifyFlag args data net resp :
  accepted scopifyFlag args data ->
  highlight (New (Arg args 0)) (queryOf Base scopifyFlag args data) = (net, Ok resp) ->
  Data resp = "" ->
  is_int (len data) ->
  Forall (fun region => is_int (Offset region) /\ is_int (Length region))
         (ScopifiedRegions resp) ->
  (status (main scopifyFlag args) = Panic <->
   Exists (fun region => ~ (0 <= Offset region /\ 0 <= Length region /\
                            Offset region + Length region <= len data))
          (ScopifiedRegions resp)) /\
  (status (main scopifyFlag args) <> Panic ->
   Forall (fun region => 0 <= Offset region /\
                         Offset region + Length region <= len data)
          (ScopifiedRegions resp)) /\
  (Exists (fun region => ~ (0 <= Offset region /\
                            Offset region + Length region <= len data))
          (ScopifiedRegions resp) ->
   status (main scopifyFlag args) = Panic).
Proof.
  intros Hacc Hcall Hdata Hlen Hint.
  rewrite (main_accepted _ _ _ Hacc), Hcall, Hdata. cbn [String.eqb negb status].
  destruct (printRegions_status data (ScopifiedScopeNames resp) _ Hlen Hint "")
    as [Hpanic Hexit].
  split; [exact Hpanic |].
  split.
  - intros Hsafe.
    destruct (printRegions_ends data (ScopifiedScopeNames resp) (ScopifiedRegions resp) "")
      as [H0|Hp]; [| contradiction].
    apply Hexit in H0. eapply Forall_impl; [exact H0 |].
    cbn. intros region (? & ? & ?). split; assumption.
  - intros Hex. apply Hpanic. eapply Exists_impl; [exact Hex |].
    cbn. intros region Hno (? & ? & ?). apply Hno. split; assumption.
Qed.

(** C10: after a successful call the tool looks at Data alone, whatever the
    mode: a non-empty Data is printed on a line of its own; with an empty
    Data the region loop runs and standard output holds what that loop
    printed, and nothing at all when the response has no regions. *)
Theorem main_branches_on_Data scopifyFlag args data net resp :
  accepted scopifyFlag args data ->
  highlight (New (Arg args 0)) (queryOf Base scopifyFlag args data) = (net, Ok resp) ->
  (Data resp <> "" ->
   main scopifyFlag args =
     {| stdout := Data resp +:+ newline; stderr := ""; network := net; status := Exit 0 |}) /\
  (Data resp = "" ->
   main scopifyFlag args =
     {| stdout := fst (printRegions data (ScopifiedScopeNames resp)
                                    (ScopifiedRegions resp) "");
        stderr := "";
        network := net;
        status := snd (printRegions data (ScopifiedScopeNames resp)
                                    (ScopifiedRegions resp) "") |}) /\
  (Data resp = "" -> ScopifiedRegions resp = [] ->
   stdout (main scopifyFlag args) = "").
Proof.
  intros Hacc Hcall. rewrite (main_accepted _ _ _ Hacc), Hcall.
  split; [| split].
  - intros Hd. apply String.eqb_neq in Hd. now rewrite Hd.
  - intros ->. reflexivity.
  - intros -> ->. reflexivity.
Qed.
End MainProperties.

(** ** The model on concrete runs *)

(** Bounds on concrete integers. *)
Ltac int_bounds := unfold is_int, intSize, len; cbn; lia.

Section Runs.
Import Demo.

Lemma Highlight_error_code_selects_witness :
  StatusCode ok <> 400 /\
  snd (Highlight quoteASCII Marshal NewRequest (answer 200 "{}")
                 (decodeAs (failure "bad" "Invalid_Theme")) (New server) query) =
    Err (Wrap (errors_New ("unknown error=" +:+ quoteASCII "bad" +:+
                           " code=" +:+ quoteASCII "Invalid_Theme"))
              "http://localhost:9238").
Proof.
  split; [discriminate |].
  destruct (Highlight_error_code_selects quoteASCII Marshal NewRequest (answer 200 "{}")
              (decodeAs (failure "bad" "Invalid_Theme")) (New server) query ok
              (failure "bad" "Invalid_Theme")) as (_ & _ & H).
  - exists "// x". repeat split.
  - discriminate.
  - reflexivity.
  - destruct H as (err & -> & _ & _ & _ & _ & Hcase); [discriminate |].
    rewrite (Hcase eq_refl). reflexivity.
Defined.

Lemma Highlight_bad_request_too_large_witness :
  StatusCode bad = 400 /\
  snd (Highlight quoteASCII Marshal NewRequest (answer 400 "{}")
                 (decodeAs (failure "bad" "invalid_theme")) (New server) query) =
    Err ErrRequestTooLarge /\
  decoded (fst (Highlight quoteASCII Marshal NewRequest (answer 400 "{}")
                          (decodeAs (failure "bad" "invalid_theme")) (New server) query)) = [].
Proof.
  split; [reflexivity |].
  apply (Highlight_bad_request_too_large quoteASCII Marshal NewRequest (answer 400 "{}")
           (decodeAs (failure "bad" "invalid_theme")) (New server) query bad).
  - exists "// x". repeat split.
  - reflexivity.
Defined.

(** C4 as the claim states it fails on status 400: the error returned is
    the bare sentinel, and its message does not hold the address. *)
Lemma Highlight_bad_request_omits_server :
  snd (Highlight quoteASCII Marshal NewRequest (answer 400 "{}")
                 (decodeAs (failure "bad" "invalid_theme")) (New server) query) =
    Err ErrRequestTooLarge /\
  Error ErrRequestTooLarge = "request too large" /\
  Contains (Error ErrRequestTooLarge) (syntectServer (New server)) = false.
Proof. repeat split. Qed.

Lemma Highlight_error_names_server_witness :
  Contains (Error (Wrap (errors_New "connection refused")
                        "making request to http://localhost:9238/"))
           (syntectServer (New server)) = true.
Proof.
  destruct (Highlight_error_names_server quoteASCII Marshal NewRequest unreachable
              (decodeAs scopified) (New server) query
              (Wrap (errors_New "connection refused")
                    "making request to http://localhost:9238/")) as [H _].
  - reflexivity.
  - discriminate.
  - discriminate.
  - exact H.
Defined.

(** The example of the specification: scope names comment, string and
    keyword, one region of three bytes at offset 0 with scope 1, over the
    code of the file. *)
Lemma scopify_prints_regions_witness :
  accepted ReadFile true [server; "x.go"] "// x" /\
  stdout (main quoteASCII Base ReadFile Marshal NewRequest (answer 200 "{}")
               (decodeAs scopified) true [server; "x.go"]) =
    dquote +:+ "// " +:+ dquote +:+ " - string" +:+ newline.
Proof.
  assert (accepted ReadFile true [server; "x.go"] "// x") as Hacc.
  { repeat split; [left; reflexivity | discriminate]. }
  split; [exact Hacc |].
  rewrite (scopify_prints_regions quoteASCII Base ReadFile Marshal NewRequest
             (answer 200 "{}") (decodeAs scopified) true [server; "x.go"] "// x"
             [Sent (requestFor (New server) "// x"); Decoding "{}"]
             (toSuccessResponse scopified) Hacc).
  - reflexivity.
  - reflexivity.
  - reflexivity.
  - int_bounds.
  - repeat constructor; int_bounds.
Defined.

(** C6 as the specification writes the line, the quoted substring and
    the names with one space between them, fails on its own example: the
    line printed has a dash between spaces after the quoted substring. *)
Lemma scopify_line_has_dash :
  stdout (main quoteASCII Base ReadFile Marshal NewRequest (answer 200 "{}")
               (decodeAs scopified) true [server; "x.go"]) =
    dquote +:+ "// " +:+ dquote +:+ " - string" +:+ newline /\
  String.eqb
    (stdout (main quoteASCII Base ReadFile Marshal NewRequest (answer 200 "{}")
                  (decodeAs scopified) true [server; "x.go"]))
    (dquote +:+ "// " +:+ dquote +:+ " string" +:+ newline) = false.
Proof. split; reflexivity. Qed.

(** C7 as the claim states it fails with no argument at all: what the tool
    writes before [os.Exit(2)] is the output of [flag.PrintDefaults], which
    is not the usage text of [flag.Usage] and holds no part of it. *)
Lemma wrong_count_omits_usage_text :
  status (main quoteASCII Base ReadFile Marshal NewRequest (answer 200 "{}")
               (decodeAs (highlighted "<p>")) false []) = Exit 2 /\
  stderr (main quoteASCII Base ReadFile Marshal NewRequest (answer 200 "{}")
               (decodeAs (highlighted "<p>")) false []) = PrintDefaults /\
  String.eqb
    (stderr (main quoteASCII Base ReadFile Marshal NewRequest (answer 200 "{}")
                  (decodeAs (highlighted "<p>")) false []))
    Usage = false /\
  Contains
    (stderr (main quoteASCII Base ReadFile Marshal NewRequest (answer 200 "{}")
                  (decodeAs (highlighted "<p>")) false []))
    "usage: gosyntect" = false.
Proof. repeat split. Qed.

Lemma New_strips_and_url_appends_witness :
  sentURLs (fst (Highlight quoteASCII Marshal NewRequest (answer 200 "{}")
                           (decodeAs scopified) (New "http://localhost:9238") query)) =
    ["http://localhost:9238/"] /\
  sentURLs (fst (Highlight quoteASCII Marshal NewRequest (answer 200 "{}")
                           (decodeAs scopified) (New "http://localhost:9238/") query)) =
    ["http://localhost:9238/"].
Proof.
  destruct (New_strips_and_url_appends quoteASCII Marshal NewRequest (answer 200 "{}")
              (decodeAs scopified)) as (_ & _ & _ & _ & _ & _ & Hplain & Hslash).
  split.
  - apply (Hplain query "// x"); reflexivity.
  - apply (Hslash query "// x"); reflexivity.
Defined.

Lemma main_rejects_server_and_theme_witness :
  Arg [server; ""; "x.go"] 1 = "" /\
  status (main quoteASCII Base ReadFile Marshal NewRequest (answer 200 "{}")
               (decodeAs (highlighted "<p>")) false [server; ""; "x.go"]) = Exit 1 /\
  stderr (main quoteASCII Base ReadFile Marshal NewRequest (answer 200 "{}")
               (decodeAs (highlighted "<p>")) false [server; ""; "x.go"]) =
    "gosyntect: theme argument is required (e.x. 'InspiredGitHub')" +:+ newline /\
  network (main quoteASCII Base ReadFile Marshal NewRequest (answer 200 "{}")
                (decodeAs (highlighted "<p>")) false ["localhost:9238"; "T"; "x.go"]) = [].
Proof.
  split; [reflexivity |].
  destruct (main_rejects_server_and_theme quoteASCII Base ReadFile Marshal NewRequest
              (answer 200 "{}") (decodeAs (highlighted "<p>")) false [server; ""; "x.go"])
    as (_ & _ & _ & Hfatal); [right; split; reflexivity |].
  destruct (Hfatal eq_refl) as [Hstatus Hstderr].
  split; [exact Hstatus |]. split; [exact Hstderr |].
  apply (main_rejects_server_and_theme quoteASCII Base ReadFile Marshal NewRequest
           (answer 200 "{}") (decodeAs (highlighted "<p>")) false
           ["localhost:9238"; "T"; "x.go"]).
  left. split; reflexivity.
Defined.

Lemma scopify_slices_unguarded_witness :
  accepted ReadFile true [server; "x.go"] "// x" /\
  status (main quoteASCII Base ReadFile Marshal NewRequest (answer 200 "{}")
               (decodeAs overlong) true [server; "x.go"]) = Panic.
Proof.
  assert (accepted ReadFile true [server; "x.go"] "// x") as Hacc.
  { repeat split; [left; reflexivity | discriminate]. }
  split; [exact Hacc |].
  apply (scopify_slices_unguarded quoteASCII Base ReadFile Marshal NewRequest
           (answer 200 "{}") (decodeAs overlong) true [server; "x.go"] "// x"
           [Sent (requestFor (New server) "// x"); Decoding "{}"]
           (toSuccessResponse overlong) Hacc).
  - reflexivity.
  - reflexivity.
  - int_bounds.
  - repeat constructor; int_bounds.
  - left. int_bounds.
Defined.

(** A region within the code whose length is negative: the offset is not
    negative and the end is within the code, yet the slice runs backwards
    and the run ends in a panic. *)
Example backwards_region_panics :
  status (main quoteASCII Base ReadFile Marshal NewRequest (answer 200 "{}")
               (decodeAs backwards) true [server; "x.go"]) = Panic.
Proof. reflexivity. Qed.

(** With no argument at all the tool writes the usage message of its flag,
    which is not the text set in [flag.Usage]: that one is written by
    [flag.Parse] on a flag it cannot read. *)
Example no_arguments_print_flag_defaults :
  main quoteASCII Base ReadFile Marshal NewRequest (answer 200 "{}")
       (decodeAs (highlighted "<p>")) false [] =
    {| stdout := ""; stderr := PrintDefaults; network := []; status := Exit 2 |} /\
  String.eqb PrintDefaults Usage = false.
Proof. split; reflexivity. Qed.

Lemma main_branches_on_Data_witness :
  accepted ReadFile false [server; "InspiredGitHub"; "x.go"] "// x" /\
  stdout (main quoteASCII Base ReadFile Marshal NewRequest (answer 200 "{}")
               (decodeAs (highlighted "")) false [server; "InspiredGitHub"; "x.go"]) = "".
Proof.
  assert (accepted ReadFile false [server; "InspiredGitHub"; "x.go"] "// x") as Hacc.
  { repeat split; [left; reflexivity | discriminate]. }
  split; [exact Hacc |].
  apply (main_branches_on_Data quoteASCII Base ReadFile Marshal NewRequest
           (answer 200 "{}") (decodeAs (highlighted "")) false
           [server; "InspiredGitHub"; "x.go"] "// x"
           [Sent (requestFor (New server) "// x"); Decoding "{}"]
           (toSuccessResponse (highlighted "")) Hacc); reflexivity.
Defined.
End Runs.

(** * Further properties of the client *)

(** ** The address and the request URL *)

Lemma substring_split (s : string) :
  forall n : nat,
    (n <= String.length s)%nat ->
    String.substring 0 n s +:+ String.substring n (String.length s - n) s = s.
Proof.
  induction s as [|a s IH]; intros [|n] Hn; cbn in *; try lia; try reflexivity.
  - f_equal. apply substring_whole.
  - f_equal. apply IH. lia.
Qed.

Lemma HasSuffix_split (s t : string) :
  HasSuffix s t = true -> TrimSuffix s t +:+ t = s.
Proof.
  intros H. unfold TrimSuffix. rewrite H. unfold HasSuffix in H.
  apply andb_true_iff in H as [Hlen Heq].
  apply Nat.leb_le in Hlen. apply String.eqb_eq in Heq.
  pose proof (substring_split s (String.length s - String.length t)) as Hsplit.
  replace (String.length s - (String.length s - String.length t))%nat
    with (String.length t) in Hsplit by lia.
  rewrite Heq in Hsplit. apply Hsplit. lia.
Qed.

Lemma url_New_root (s : string) :
  syntectServer (New s) +:+ "/" = if HasSuffix s "/" then s else s +:+ "/".
Proof.
  unfold New. cbn [syntectServer].
  destruct (HasSuffix s "/") eqn:H.
  - now apply HasSuffix_split.
  - now rewrite TrimSuffix_none.
Qed.

(** X1: the URL every request is sent to is the configured address itself
    when that ends with the separator, and the address followed by the
    separator otherwise; [New] removes one separator and no more. *)
Theorem New_url_root (s : string) :
  url (New s) "/" = (if HasSuffix s "/" then s else s +:+ "/") /\
  (String.length s - 1 <= String.length (syntectServer (New s)) <= String.length s)%nat /\
  syntectServer (New (s +:+ "//")) = s +:+ "/".
Proof.
  split; [| split].
  - unfold url. apply url_New_root.
  - unfold New. cbn [syntectServer].
    destruct (HasSuffix s "/") eqn:H.
    + apply HasSuffix_split in H.
      assert (String.length s = String.length (TrimSuffix s "/") + 1)%nat as Hlen
        by (rewrite <- H at 1; apply length_append).
      lia.
    + rewrite TrimSuffix_none by assumption. lia.
  - unfold New. cbn [syntectServer].
    replace (s +:+ "//") with ((s +:+ "/") +:+ "/") by now rewrite append_assoc.
    apply TrimSuffix_append.
Qed.

(** ** Every path through [Highlight] *)

Section HighlightPaths.
Variable Quote : string -> string.
Variable Marshal : Query -> result string.
Variable NewRequest : string -> string -> string -> option error.
Variable Do : Request -> result HTTPResponse.
Variable Decode : string -> result response.

Local Abbreviation highlight := (Highlight Quote Marshal NewRequest Do Decode).
Local Abbreviation answered := (answered Marshal NewRequest Do).

(** X2: a call calls [client.Do] at most once, with the POST of the
    encoded query as JSON to the address followed by the separator; it
    decodes at most one body, the one [client.Do] returned, and only when
    the status is not 400; a call that succeeds has done both. *)
Theorem Highlight_trace_shape (c : Client) (q : Query) :
  (fst (highlight c q) = [] /\ is_Err (snd (highlight c q)) = true) \/
  exists jsonQuery,
    Marshal q = Ok jsonQuery /\
    ((fst (highlight c q) =
        [Sent {| Method := "POST"; URL := syntectServer c +:+ "/";
                 ContentType := "application/json"; Body := jsonQuery |}] /\
      is_Err (snd (highlight c q)) = true) \/
     (exists resp,
        Do {| Method := "POST"; URL := syntectServer c +:+ "/";
              ContentType := "application/json"; Body := jsonQuery |} = Ok resp /\
        StatusCode resp <> 400 /\
        fst (highlight c q) =
          [Sent {| Method := "POST"; URL := syntectServer c +:+ "/";
                   ContentType := "application/json"; Body := jsonQuery |};
           Decoding (RespBody resp)])).
Proof.
  unfold Highlight, url.
  destruct (Marshal q) as [jsonQuery|e]; [| left; split; reflexivity].
  destruct (NewRequest _ _ _); [left; split; reflexivity |].
  right. exists jsonQuery. split; [reflexivity |].
  destruct (Do _) as [resp|e] eqn:HD; [| left; split; reflexivity].
  destruct (Z.eqb_spec (StatusCode resp) StatusBadRequest) as [H400|H400].
  - left. split; reflexivity.
  - right. exists resp. split; [reflexivity |]. split; [exact H400 |].
    destruct (Decode _) as [r|e]; [destruct (negb _) |]; reflexivity.
Qed.

(** X3: nothing is sent exactly when the query could not be encoded or the
    request could not be built, and the call then returns that failure
    under the context of the step that failed. *)
Theorem Highlight_nothing_sent_iff (c : Client) (q : Query) :
  sentURLs (fst (highlight c q)) = [] <->
  (exists e, Marshal q = Err e /\
             highlight c q = ([], Err (Wrap e "encoding query"))) \/
  (exists jsonQuery e,
      Marshal q = Ok jsonQuery /\
      NewRequest "POST" (syntectServer c +:+ "/") jsonQuery = Some e /\
      highlight c q = ([], Err (Wrap e "building request"))).
Proof.
  unfold Highlight, url.
  destruct (Marshal q) as [jsonQuery|e].
  - destruct (NewRequest _ _ _) as [e|] eqn:HN.
    + split; [intros _ | reflexivity]. right. now exists jsonQuery, e.
    + split.
      * intros H. exfalso.
        destruct (Do _); [destruct (_ =? _); [| destruct (Decode _); [destruct (negb _) |]] |];
          cbn in H; discriminate.
      * intros [(e & He & _) | (j & e & Hj & He & _)]; [discriminate He |].
        injection Hj as <-. rewrite HN in He. discriminate He.
  - split; [intros _ | reflexivity]. left. now exists e.
Qed.

(** X4: a call succeeds exactly when the transport answered with a status
    other than 400, the body decoded to a record with an empty Error, and
    the value returned is the projection of that record. *)
Theorem Highlight_success_iff (c : Client) (q : Query) (out : Response) :
  snd (highlight c q) = Ok out <->
  exists resp r,
    answered c q resp /\
    StatusCode resp <> 400 /\
    Decode (RespBody resp) = Ok r /\
    wError r = "" /\
    out = toSuccessResponse r.
Proof.
  split.
  - unfold Highlight, gosyntect.answered.
    destruct (Marshal q) as [jsonQuery|e]; [| discriminate].
    destruct (NewRequest _ _ _) eqn:HN; [discriminate |].
    fold (requestFor c jsonQuery).
    destruct (Do _) as [resp|e] eqn:HD; [| discriminate].
    destruct (Z.eqb_spec (StatusCode resp) StatusBadRequest) as [H400|H400]; [discriminate |].
    destruct (Decode _) as [r|e] eqn:Hr; [| discriminate].
    destruct (String.eqb_spec (wError r) "") as [He|He]; cbn [negb snd]; [| discriminate].
    intros [= <-]. exists resp, r. repeat split; try assumption.
    exists jsonQuery. repeat split; assumption.
  - intros (resp & r & Hans & H400 & Hr & He & ->).
    destruct (Highlight_answered Quote Marshal NewRequest Do Decode c q resp Hans)
      as (req & _ & ->).
    apply Z.eqb_neq in H400. unfold StatusBadRequest. rewrite H400, Hr, He.
    reflexivity.
Qed.

(** X5: once the transport has answered, the call returns the bare
    [ErrRequestTooLarge] exactly when the status is 400. *)
Theorem Highlight_too_large_iff_400 (c : Client) (q : Query) (resp : HTTPResponse) :
  answered c q resp ->
  (snd (highlight c q) = Err ErrRequestTooLarge <-> StatusCode resp = 400).
Proof.
  intros Hans.
  destruct (Highlight_answered Quote Marshal NewRequest Do Decode c q resp Hans)
    as (req & _ & ->).
  unfold StatusBadRequest.
  destruct (Z.eqb_spec (StatusCode resp) 400) as [H400|H400].
  - split; [intros _; exact H400 | reflexivity].
  - split; [| contradiction].
    destruct (Decode _) as [r|e]; [destruct (negb _) |]; discriminate.
Qed.

(** X6: for an error the service reported, [errors.Cause] of the returned
    error is [ErrInvalidTheme] exactly for the code invalid_theme and
    [ErrPanic] exactly for the code panic; it is never
    [ErrRequestTooLarge], and the message is the address, a colon and the
    message of that cause. *)
Theorem Highlight_cause_identifies_code c q resp r :
  answered c q resp ->
  StatusCode resp <> 400 ->
  Decode (RespBody resp) = Ok r ->
  wError r <> "" ->
  exists e,
    snd (highlight c q) = Err e /\
    (Cause e = ErrInvalidTheme <-> wCode r = "invalid_theme") /\
    (Cause e = ErrPanic <-> wCode r = "panic") /\
    Cause e <> ErrRequestTooLarge /\
    Error e = syntectServer c +:+ ": " +:+ Error (Cause e).
Proof.
  intros Hans H400 Hr He.
  destruct (Highlight_answered Quote Marshal NewRequest Do Decode c q resp Hans)
    as (req & _ & ->).
  apply Z.eqb_neq in H400. unfold StatusBadRequest. rewrite H400, Hr.
  apply String.eqb_neq in He. rewrite He. cbn [negb snd].
  eexists. split; [reflexivity |]. cbn [Cause Error]. unfold errorOfCode.
  destruct (String.eqb_spec (wCode r) "invalid_theme") as [H1|H1];
    [| destruct (String.eqb_spec (wCode r) "resource_not_found") as [H2|H2];
       [| destruct (String.eqb_spec (wCode r) "panic") as [H3|H3]]];
    cbn [Cause Error];
    (split; [split; intros H; try discriminate; try reflexivity; try congruence |]);
    (split; [split; intros H; try discriminate; try reflexivity; try congruence |]);
    (split; [discriminate | reflexivity]).
Qed.

(** X7: every error of a call is either the bare [ErrRequestTooLarge] of a
    status 400, or the failure of exactly one step wrapped once, under the
    context of that step: encoding, building, the transport, decoding, or
    the error the service reported. *)
Theorem Highlight_error_taxonomy (c : Client) (q : Query) (e : error) :
  snd (highlight c q) = Err e ->
  (e = ErrRequestTooLarge /\
   exists resp, answered c q resp /\ StatusCode resp = 400) \/
  exists inner context,
    e = Wrap inner context /\
    Cause e = Cause inner /\
    Error e = context +:+ ": " +:+ Error inner /\
    ((Marshal q = Err inner /\ context = "encoding query") \/
     (exists jsonQuery,
         Marshal q = Ok jsonQuery /\
         NewRequest "POST" (syntectServer c +:+ "/") jsonQuery = Some inner /\
         context = "building request") \/
     (exists jsonQuery,
         Marshal q = Ok jsonQuery /\
         NewRequest "POST" (syntectServer c +:+ "/") jsonQuery = None /\
         Do (requestFor c jsonQuery) = Err inner /\
         context = "making request to " +:+ syntectServer c +:+ "/") \/
     (exists resp,
         answered c q resp /\ StatusCode resp <> 400 /\
         Decode (RespBody resp) = Err inner /\
         context = "decoding JSON response from " +:+ syntectServer c +:+ "/") \/
     (exists resp r,
         answered c q resp /\ StatusCode resp <> 400 /\
         Decode (RespBody resp) = Ok r /\ wError r <> "" /\
         inner = errorOfCode Quote r /\ context = syntectServer c)).
Proof.
  unfold Highlight, gosyntect.answered, url.
  destruct (Marshal q) as [jsonQuery|e0] eqn:HM.
  2: { intros [= <-]. right. exists e0, "encoding query".
       repeat split. left. split; reflexivity. }
  destruct (NewRequest _ _ _) as [e0|] eqn:HN.
  { intros [= <-]. right. exists e0, "building request".
    repeat split. right; left. exists jsonQuery. repeat split. exact HN. }
  fold (url c "/"). fold (requestFor c jsonQuery).
  destruct (Do _) as [resp|e0] eqn:HD.
  2: { intros [= <-]. right. eexists e0, _. repeat split.
       right; right; left. exists jsonQuery. repeat split; assumption. }
  assert (exists j, Ok jsonQuery = Ok j /\
                    NewRequest "POST" (syntectServer c +:+ "/") j = None /\
                    Do (requestFor c j) = Ok resp) as Hans
    by (exists jsonQuery; repeat split; assumption).
  destruct (Z.eqb_spec (StatusCode resp) StatusBadRequest) as [H400|H400].
  { intros [= <-]. left. split; [reflexivity |]. exists resp. split; assumption. }
  destruct (Decode _) as [r|e0] eqn:Hr.
  2: { intros [= <-]. right. eexists e0, _. repeat split.
       right; right; right; left. exists resp. repeat split; assumption. }
  destruct (String.eqb_spec (wError r) "") as [He|He]; cbn [negb snd]; [discriminate |].
  intros [= <-]. right. eexists _, _. repeat split.
  right; right; right; right. exists resp, r. repeat split; assumption.
Qed.
End HighlightPaths.

(** X8: for the three codes the client knows, the text the service put in
    Error never reaches the caller: two answers, with bodies that decode to
    records with the same known code and any two non-empty texts, make the
    call return the same error. *)
Theorem Highlight_known_code_drops_text
    (Quote : string -> string) (Marshal : Query -> result string)
    (NewRequest : string -> string -> string -> option error)
    (Do1 Do2 : Request -> result HTTPResponse)
    (Decode : string -> result response)
    (c : Client) (q : Query) (resp1 resp2 : HTTPResponse) (r1 r2 : response) :
  answered Marshal NewRequest Do1 c q resp1 ->
  answered Marshal NewRequest Do2 c q resp2 ->
  StatusCode resp1 <> 400 -> StatusCode resp2 <> 400 ->
  Decode (RespBody resp1) = Ok r1 ->
  Decode (RespBody resp2) = Ok r2 ->
  wError r1 <> "" -> wError r2 <> "" ->
  wCode r1 = wCode r2 ->
  wCode r1 = "invalid_theme" \/ wCode r1 = "resource_not_found" \/ wCode r1 = "panic" ->
  snd (Highlight Quote Marshal NewRequest Do1 Decode c q) =
  snd (Highlight Quote Marshal NewRequest Do2 Decode c q).
Proof.
  intros Hans1 Hans2 H400a H400b H1 H2 He1 He2 Hcode Hknown.
  destruct (Highlight_answered Quote Marshal NewRequest Do1 Decode c q resp1 Hans1)
    as (req1 & _ & ->).
  destruct (Highlight_answered Quote Marshal NewRequest Do2 Decode c q resp2 Hans2)
    as (req2 & _ & ->).
  apply Z.eqb_neq in H400a, H400b. unfold StatusBadRequest.
  rewrite H400a, H400b, H1, H2.
  apply String.eqb_neq in He1, He2. rewrite He1, He2. cbn [negb snd].
  unfold errorOfCode. rewrite <- Hcode.
  destruct Hknown as [-> | [-> | ->]]; reflexivity.
Qed.

(** ** Resolving scope indexes *)

Lemma rangeScopeNames_size (names : list string) :
  forall (index : Z) (m : gmap Z string),
    (forall k, index <= k -> m !! k = None) ->
    size (rangeScopeNames index names m) = (length names + size m)%nat.
Proof.
  induction names as [|name rest IH]; intros index m Hfresh; cbn [rangeScopeNames length].
  - reflexivity.
  - rewrite IH.
    + rewrite map_size_insert_None by (apply Hfresh; lia). lia.
    + intros k Hk. rewrite lookup_insert_ne by lia. apply Hfresh. lia.
Qed.

(** X9: the public map has as many entries as the service sent names; the
    tool resolves an index within the list to the name at that position
    and any other index, negative ones included, to the empty name. *)
Theorem scope_index_resolution (r : response) :
  size (ScopifiedScopeNames (toSuccessResponse r)) = length (wScopifiedScopeNames r) /\
  (forall i : Z,
      Go.index (ScopifiedScopeNames (toSuccessResponse r)) i =
        if decide (0 <= i < Z.of_nat (length (wScopifiedScopeNames r)))
        then nth (Z.to_nat i) (wScopifiedScopeNames r) ""
        else "") /\
  (forall indexes : list Z,
      appendScopes (ScopifiedScopeNames (toSuccessResponse r)) indexes [] =
        map (fun i : Z =>
               if decide (0 <= i < Z.of_nat (length (wScopifiedScopeNames r)))
               then nth (Z.to_nat i) (wScopifiedScopeNames r) ""
               else "")
            indexes).
Proof.
  assert (forall i : Z,
      Go.index (ScopifiedScopeNames (toSuccessResponse r)) i =
        if decide (0 <= i < Z.of_nat (length (wScopifiedScopeNames r)))
        then nth (Z.to_nat i) (wScopifiedScopeNames r) ""
        else "") as Hindex.
  { intros i. unfold Go.index. cbn [toSuccessResponse ScopifiedScopeNames].
    rewrite rangeScopeNames_lookup, Z.sub_0_r, Z.add_0_l, lookup_empty.
    case_decide; [| reflexivity]. now rewrite nth_lookup. }
  split; [| split; [exact Hindex |]].
  - cbn [toSuccessResponse ScopifiedScopeNames].
    rewrite rangeScopeNames_size by (intros; apply lookup_empty).
    rewrite map_size_empty. lia.
  - intros indexes. rewrite appendScopes_map. cbn [app].
    apply map_ext. exact Hindex.
Qed.

(** * Further properties of the command-line tool *)

Section MainPaths.
Variable Quote : string -> string.
Variable Base : string -> string.
Variable ReadFile : string -> result string.
Variable Marshal : Query -> result string.
Variable NewRequest : string -> string -> string -> option error.
Variable Do : Request -> result HTTPResponse.
Variable Decode : string -> result response.

Local Abbreviation highlight := (Highlight Quote Marshal NewRequest Do Decode).
Local Abbreviation main := (main Quote Base ReadFile Marshal NewRequest Do Decode).
Local Abbreviation request := (request Quote Base Marshal NewRequest Do Decode).
Local Abbreviation accepted := (accepted ReadFile).
Local Abbreviation printRegions := (printRegions Quote).

(** The run of [main] from the creation of the client on. *)
Lemma request_shapes (server : string) (query : Query) :
  (status (request server query) = Exit 1 /\ stdout (request server query) = "" /\
   exists e, stderr (request server query) = "gosyntect: " +:+ Error e +:+ newline) \/
  (status (request server query) = Exit 0 /\ stderr (request server query) = "") \/
  (status (request server query) = Panic /\ stderr (request server query) = "").
Proof.
  unfold cmd.request.
  destruct (highlight _ _) as [net [resp|e]].
  - destruct (negb _); [right; left; split; reflexivity |].
    pose proof (printRegions_ends Quote (Code query) (ScopifiedScopeNames resp)
                                  (ScopifiedRegions resp) "") as Hend.
    cbn [Code] in *. destruct (printRegions _ _ _ _) as [out st]. cbn in *.
    destruct Hend as [-> | ->]; [right; left | right; right]; split; reflexivity.
  - left. split; [reflexivity |]. split; [reflexivity |]. now exists e.
Qed.

(** X10: a file that cannot be read ends the run before the client is
    created: the message of the error on a fatal log line, nothing on
    standard output, nothing sent, status 1. *)
Theorem main_unreadable_file (scopifyFlag : bool) (args : list string) (e : error) :
  NArg args = (if scopifyFlag then 2 else 3) ->
  HasPrefix (Arg args 0) "http://" = true \/ HasPrefix (Arg args 0) "https://" = true ->
  (scopifyFlag = false -> Arg args 1 <> "") ->
  ReadFile (Arg args (if scopifyFlag then 1 else 2)) = Err e ->
  main scopifyFlag args =
    {| stdout := "";
       stderr := "gosyntect: " +:+ Error e +:+ newline;
       network := [];
       status := Exit 1 |}.
Proof.
  intros Hn Hserver Htheme Hfile. unfold cmd.main. rewrite Hn.
  assert (negb (HasPrefix (Arg args 0) "http://") &&
          negb (HasPrefix (Arg args 0) "https://") = false) as ->.
  { destruct Hserver as [-> | ->]; [reflexivity | apply andb_false_r]. }
  destruct scopifyFlag; cbn [negb andb orb Z.eqb Pos.eqb].
  - rewrite Hfile. reflexivity.
  - destruct (String.eqb_spec (Arg args 1) "") as [He|_]; [now apply Htheme in He |].
    rewrite Hfile. reflexivity.
Qed.

(** X11: every failure of the call reaches the user: the message of the
    returned error on a fatal log line, nothing on standard output,
    status 1. *)
Theorem main_reports_call_failure scopifyFlag args data (e : error) :
  accepted scopifyFlag args data ->
  snd (highlight (New (Arg args 0)) (queryOf Base scopifyFlag args data)) = Err e ->
  main scopifyFlag args =
    {| stdout := "";
       stderr := "gosyntect: " +:+ Error e +:+ newline;
       network := fst (highlight (New (Arg args 0)) (queryOf Base scopifyFlag args data));
       status := Exit 1 |}.
Proof.
  intros Hacc Hcall.
  rewrite (main_accepted Quote Base ReadFile Marshal NewRequest Do Decode _ _ _ Hacc).
  destruct (highlight _ _) as [net res]. cbn [fst snd] in *. now subst res.
Qed.

(** X12: once [flag.Parse] has returned, a run of [main] ends in one of four
    ways: through [os.Exit(2)] with the output of [flag.PrintDefaults] on
    standard error and nothing sent; through [os.Exit(1)] with one fatal
    log line on standard error; in both cases with nothing on standard
    output; by returning, with nothing on standard error; or in a run-time
    panic. *)
Theorem main_output_discipline (scopifyFlag : bool) (args : list string) :
  (status (main scopifyFlag args) = Exit 2 /\
   stdout (main scopifyFlag args) = "" /\
   stderr (main scopifyFlag args) = PrintDefaults /\
   network (main scopifyFlag args) = []) \/
  (status (main scopifyFlag args) = Exit 1 /\
   stdout (main scopifyFlag args) = "" /\
   exists msg, stderr (main scopifyFlag args) = "gosyntect: " +:+ msg +:+ newline) \/
  (status (main scopifyFlag args) = Exit 0 /\ stderr (main scopifyFlag args) = "") \/
  status (main scopifyFlag args) = Panic.
Proof.
  assert (forall server query,
             (status (request server query) = Exit 1 /\
              stdout (request server query) = "" /\
              exists msg, stderr (request server query) = "gosyntect: " +:+ msg +:+ newline) \/
             (status (request server query) = Exit 0 /\ stderr (request server query) = "") \/
             status (request server query) = Panic)
    as Hreq.
  { intros server query.
    destruct (request_shapes server query) as [(? & ? & e & ?) | [H | [H _]]];
      [| now right; left | now right; right].
    left. repeat split; try assumption. now exists (Error e). }
  unfold cmd.main.
  destruct ((negb scopifyFlag && negb (NArg args =? 3))
            || (scopifyFlag && negb (NArg args =? 2))).
  { left. repeat split. }
  right.
  destruct (negb (HasPrefix _ _) && _).
  { left. split; [reflexivity |]. split; [reflexivity |].
    now exists "expected server to have http:// or https:// prefix". }
  destruct (negb scopifyFlag).
  - destruct (String.eqb _ _).
    { left. split; [reflexivity |]. split; [reflexivity |].
      now exists "theme argument is required (e.x. 'InspiredGitHub')". }
    destruct (ReadFile _) as [data|e]; [apply Hreq |].
    left. split; [reflexivity |]. split; [reflexivity |]. now exists (Error e).
  - destruct (ReadFile _) as [data|e]; [apply Hreq |].
    left. split; [reflexivity |]. split; [reflexivity |]. now exists (Error e).
Qed.

Lemma printRegions_app code names (good rest : list ScopifiedRegion) :
  is_int (len code) ->
  Forall (fun region => 0 <= Offset region /\ 0 <= Length region /\
                        Offset region + Length region <= len code) good ->
  forall out,
    printRegions code names (good ++ rest)%list out =
    printRegions code names rest
      (out +:+ foldr (fun region printed =>
                        Quote (String.substring (Z.to_nat (Offset region))
                                                (Z.to_nat (Length region)) code)
                        +:+ " - "
                        +:+ Join (map (Go.index names) (Scopes region)) " "
                        +:+ newline +:+ printed)
                     "" good).
Proof.
  intros Hc Hall. induction Hall as [|region good (Ho & Hl & Hsum) _ IH]; intros out.
  - cbn. now rewrite append_nil_r.
  - cbn [app cmd.printRegions foldr].
    unfold int_add. rewrite wrap_small by (unfold is_int in *; lia).
    rewrite slice_Some by lia.
    replace (Offset region + Length region - Offset region) with (Length region) by lia.
    rewrite IH, appendScopes_map. cbn [app]. now rewrite !append_assoc.
Qed.

(** X13: the loop stops at the first region that is no ordered range
    within the code: the lines of the regions before it are already on
    standard output when the run panics, and no later region is rendered. *)
Theorem main_prints_until_bad_region scopifyFlag args data net resp
    (good : list ScopifiedRegion) (bad : ScopifiedRegion) (rest : list ScopifiedRegion) :
  accepted scopifyFlag args data ->
  highlight (New (Arg args 0)) (queryOf Base scopifyFlag args data) = (net, Ok resp) ->
  Data resp = "" ->
  ScopifiedRegions resp = (good ++ bad :: rest)%list ->
  is_int (len data) ->
  Forall (fun region => 0 <= Offset region /\ 0 <= Length region /\
                        Offset region + Length region <= len data) good ->
  is_int (Offset bad) -> is_int (Length bad) ->
  ~ (0 <= Offset bad /\ 0 <= Length bad /\ Offset bad + Length bad <= len data) ->
  main scopifyFlag args =
    {| stdout :=
         foldr (fun region printed =>
                  Quote (String.substring (Z.to_nat (Offset region))
                                          (Z.to_nat (Length region)) data)
                  +:+ " - "
                  +:+ Join (map (Go.index (ScopifiedScopeNames resp)) (Scopes region)) " "
                  +:+ newline +:+ printed)
               "" good;
       stderr := "";
       network := net;
       status := Panic |}.
Proof.
  intros Hacc Hcall Hdata Hregions Hlen Hgood Ho Hl Hbad.
  rewrite (main_accepted Quote Base ReadFile Marshal NewRequest Do Decode _ _ _ Hacc).
  rewrite Hcall, Hdata, Hregions. cbn [String.eqb negb].
  rewrite (printRegions_app _ _ _ _ Hlen Hgood). cbn [cmd.printRegions String.append].
  rewrite (proj2 (region_slice_None data bad Hlen Ho Hl) Hbad). reflexivity.
Qed.

Lemma Highlight_sentURLs (c : Client) (q : Query) :
  sentURLs (fst (highlight c q)) = [] \/
  sentURLs (fst (highlight c q)) = [syntectServer c +:+ "/"].
Proof.
  unfold Highlight.
  destruct (Marshal q) as [jsonQuery|]; [| now left].
  destruct (NewRequest _ _ _); [now left |].
  destruct (Do _) as [resp|]; [| now right].
  destruct (StatusCode resp =? StatusBadRequest); [now right |].
  destruct (Decode _) as [r|]; [| now right].
  destruct (negb _); now right.
Qed.

(** X14: whatever its arguments, a run of [main] calls [client.Do] at most
    once, and the request it passes is for the server argument itself when
    that ends with the separator, for the server argument followed by the
    separator otherwise. *)
Theorem main_calls_Do_at_most_once (scopifyFlag : bool) (args : list string) :
  sentURLs (network (main scopifyFlag args)) = [] \/
  sentURLs (network (main scopifyFlag args)) =
    [if HasSuffix (Arg args 0) "/" then Arg args 0 else Arg args 0 +:+ "/"].
Proof.
  assert (forall query,
             sentURLs (network (request (Arg args 0) query)) = [] \/
             sentURLs (network (request (Arg args 0) query)) =
               [if HasSuffix (Arg args 0) "/" then Arg args 0 else Arg args 0 +:+ "/"])
    as Hreq.
  { intros query. unfold cmd.request. rewrite <- url_New_root.
    match goal with
    | |- context [highlight ?c ?q] =>
      pose proof (Highlight_sentURLs c q) as Hsent;
        destruct (highlight c q) as [net [resp|e]]
    end; cbn [fst] in Hsent.
    - destruct (negb _); [exact Hsent |].
      now destruct (printRegions _ _ _ _).
    - exact Hsent. }
  unfold cmd.main.
  destruct ((negb scopifyFlag && negb (NArg args =? 3))
            || (scopifyFlag && negb (NArg args =? 2))); [now left |].
  destruct (negb (HasPrefix _ _) && _); [now left |].
  destruct (negb scopifyFlag).
  - destruct (String.eqb _ _); [now left |].
    destruct (ReadFile _); [apply Hreq | now left].
  - destruct (ReadFile _); [apply Hreq | now left].
Qed.

(** X15: once [flag.Parse] has returned, [main] ends with status 0 only
    after its arguments passed every check, the file was read and the call
    returned a response. *)
Theorem main_exit_0_only_after_success (scopifyFlag : bool) (args : list string) :
  status (main scopifyFlag args) = Exit 0 ->
  exists data resp,
    accepted scopifyFlag args data /\
    snd (highlight (New (Arg args 0)) (queryOf Base scopifyFlag args data)) = Ok resp.
Proof.
  unfold cmd.main, cmd.accepted, expectedArgs, fileArg.
  destruct ((negb scopifyFlag && negb (NArg args =? 3))
            || (scopifyFlag && negb (NArg args =? 2))) eqn:Hcount; [discriminate |].
  destruct (negb (HasPrefix (Arg args 0) "http://") &&
            negb (HasPrefix (Arg args 0) "https://")) eqn:Hserver; [discriminate |].
  assert (NArg args = (if scopifyFlag then 2 else 3)) as Hn.
  { destruct scopifyFlag; cbn in Hcount.
    - apply negb_false_iff, Z.eqb_eq in Hcount. exact Hcount.
    - rewrite orb_false_r in Hcount. apply negb_false_iff, Z.eqb_eq in Hcount. exact Hcount. }
  assert (HasPrefix (Arg args 0) "http://" = true \/
          HasPrefix (Arg args 0) "https://" = true) as Hs.
  { apply andb_false_iff in Hserver as [H|H]; apply negb_false_iff in H; auto. }
  assert (forall data,
             status (request (Arg args 0)
                       {| Extension := "";
                          Filepath := (if scopifyFlag then Arg args 1 else Arg args 2);
                          Theme := (if scopifyFlag then "" else Arg args 1);
                          Scopify := scopifyFlag;
                          Code := data |}) = Exit 0 ->
             exists resp,
               snd (highlight (New (Arg args 0)) (queryOf Base scopifyFlag args data))
               = Ok resp) as Hreq.
  { intros data.
    unfold cmd.request, queryOf, fileArg. cbn [Extension Filepath Theme Scopify Code].
    replace (Arg args (if scopifyFlag then 1%nat else 2%nat))
      with (if scopifyFlag then Arg args 1 else Arg args 2) by now destruct scopifyFlag.
    destruct (highlight _ _) as [net [resp|e]]; [| discriminate].
    intros _. now exists resp. }
  destruct scopifyFlag; cbn [negb].
  - destruct (ReadFile (Arg args 1)) as [data|e] eqn:Hfile; [| discriminate].
    intros Hst. exists data.
    destruct (Hreq data Hst) as [resp Hresp].
    exists resp.
    split; [split; [exact Hn | split; [exact Hs | split; [discriminate | reflexivity]]]
           | exact Hresp].
  - destruct (String.eqb_spec (Arg args 1) "") as [He|He]; [discriminate |].
    destruct (ReadFile (Arg args 2)) as [data|e] eqn:Hfile; [| discriminate].
    intros Hst. exists data.
    destruct (Hreq data Hst) as [resp Hresp].
    exists resp.
    split; [split; [exact Hn | split; [exact Hs | split; [intros _; exact He | reflexivity]]]
           | exact Hresp].
Qed.

Lemma main_network scopifyFlag args data :
  accepted scopifyFlag args data ->
  network (main scopifyFlag args) =
    fst (highlight (New (Arg args 0)) (queryOf Base scopifyFlag args data)).
Proof.
  intros Hacc.
  rewrite (main_accepted Quote Base ReadFile Marshal NewRequest Do Decode _ _ _ Hacc).
  destruct (highlight _ _) as [net [resp|e]]; [| reflexivity].
  destruct (negb _); reflexivity.
Qed.

(** X16: for accepted arguments the body the tool posts is the encoding of
    the query with an empty extension, the base name of the file argument,
    the theme argument in highlight mode and no theme in scopify mode, the
    mode flag, and the contents of the file. *)
Theorem main_posts_encoded_query scopifyFlag args data jsonQuery :
  accepted scopifyFlag args data ->
  Marshal {| Extension := "";
             Filepath := Base (Arg args (if scopifyFlag then 1 else 2)%nat);
             Theme := if scopifyFlag then "" else Arg args 1;
             Scopify := scopifyFlag;
             Code := data |} = Ok jsonQuery ->
  NewRequest "POST" (syntectServer (New (Arg args 0)) +:+ "/") jsonQuery = None ->
  exists rest,
    network (main scopifyFlag args) =
      Sent {| Method := "POST";
              URL := syntectServer (New (Arg args 0)) +:+ "/";
              ContentType := "application/json";
              Body := jsonQuery |} :: rest.
Proof.
  intros Hacc HM HN. rewrite (main_network _ _ _ Hacc).
  unfold Highlight, queryOf, fileArg, url. rewrite HM, HN.
  destruct (Do _) as [resp|e]; [| now eexists].
  destruct (StatusCode resp =? StatusBadRequest); [now eexists |].
  destruct (Decode _) as [r|e]; [destruct (negb _) |]; now eexists.
Qed.
End MainPaths.

(** ** Further concrete runs *)

Section MoreRuns.
Import Demo.

Lemma Highlight_too_large_iff_400_witness :
  StatusCode bad = 400 /\
  snd (Highlight quoteASCII Marshal NewRequest (answer 400 "{}") undecodable
                 (New server) query) = Err ErrRequestTooLarge.
Proof.
  split; [reflexivity |].
  apply (Highlight_too_large_iff_400 quoteASCII Marshal NewRequest (answer 400 "{}")
           undecodable (New server) query bad).
  - exists "// x". repeat split.
  - reflexivity.
Defined.

Lemma Highlight_cause_identifies_code_witness :
  exists e,
    snd (Highlight quoteASCII Marshal NewRequest (answer 200 "{}")
                   (decodeAs (failure "boom" "panic")) (New server) query) = Err e /\
    Cause e = ErrPanic.
Proof.
  destruct (Highlight_cause_identifies_code quoteASCII Marshal NewRequest (answer 200 "{}")
              (decodeAs (failure "boom" "panic")) (New server) query ok
              (failure "boom" "panic")) as (e & He & _ & Hpanic & _).
  - exists "// x". repeat split.
  - discriminate.
  - reflexivity.
  - discriminate.
  - exists e. split; [exact He | apply Hpanic; reflexivity].
Defined.

Lemma Highlight_error_taxonomy_witness :
  snd (Highlight quoteASCII Marshal NewRequest (answer 200 "{}") undecodable
                 (New server) query) =
    Err (Wrap (errors_New "unexpected end of JSON input")
              "decoding JSON response from http://localhost:9238/") /\
  Error (Wrap (errors_New "unexpected end of JSON input")
              "decoding JSON response from http://localhost:9238/") =
    "decoding JSON response from http://localhost:9238/: unexpected end of JSON input" /\
  Cause (Wrap (errors_New "unexpected end of JSON input")
              "decoding JSON response from http://localhost:9238/") =
    errors_New "unexpected end of JSON input".
Proof.
  destruct (Highlight_error_taxonomy quoteASCII Marshal NewRequest (answer 200 "{}")
              undecodable (New server) query
              (Wrap (errors_New "unexpected end of JSON input")
                    "decoding JSON response from http://localhost:9238/") eq_refl)
    as [[Hbare _] | (inner & context & Heq & Hcause & Hmsg & _)].
  - discriminate Hbare.
  - injection Heq as <- <-. split; [reflexivity | split; [exact Hmsg | exact Hcause]].
Defined.

Lemma Highlight_known_code_drops_text_witness :
  RespBody {| StatusCode := 200; RespBody := "first" |} <>
    RespBody {| StatusCode := 200; RespBody := "second" |} /\
  snd (Highlight quoteASCII Marshal NewRequest (answer 200 "first")
                 (decodeByBody "first" (failure "theme Foo not found" "invalid_theme")
                               (failure "no such theme" "invalid_theme"))
                 (New server) query) =
  snd (Highlight quoteASCII Marshal NewRequest (answer 200 "second")
                 (decodeByBody "first" (failure "theme Foo not found" "invalid_theme")
                               (failure "no such theme" "invalid_theme"))
                 (New server) query).
Proof.
  split; [discriminate |].
  apply (Highlight_known_code_drops_text quoteASCII Marshal NewRequest
           (answer 200 "first") (answer 200 "second")
           (decodeByBody "first" (failure "theme Foo not found" "invalid_theme")
                         (failure "no such theme" "invalid_theme"))
           (New server) query
           {| StatusCode := 200; RespBody := "first" |}
           {| StatusCode := 200; RespBody := "second" |}
           (failure "theme Foo not found" "invalid_theme")
           (failure "no such theme" "invalid_theme")).
  - exists "// x". repeat split.
  - exists "// x". repeat split.
  - discriminate.
  - discriminate.
  - reflexivity.
  - reflexivity.
  - discriminate.
  - discriminate.
  - reflexivity.
  - left. reflexivity.
Defined.

Lemma main_unreadable_file_witness :
  ReadFile "missing.go" = Err (errors_New "no such file") /\
  main quoteASCII Base ReadFile Marshal NewRequest (answer 200 "{}")
       (decodeAs (highlighted "<p>")) false [server; "InspiredGitHub"; "missing.go"] =
    {| stdout := "";
       stderr := "gosyntect: no such file" +:+ newline;
       network := [];
       status := Exit 1 |}.
Proof.
  split; [reflexivity |].
  apply (main_unreadable_file quoteASCII Base ReadFile Marshal NewRequest (answer 200 "{}")
           (decodeAs (highlighted "<p>")) false [server; "InspiredGitHub"; "missing.go"]
           (errors_New "no such file")).
  - reflexivity.
  - left. reflexivity.
  - discriminate.
  - reflexivity.
Defined.

Lemma main_reports_call_failure_witness :
  stderr (main quoteASCII Base ReadFile Marshal NewRequest unreachable
               (decodeAs (highlighted "<p>")) false [server; "InspiredGitHub"; "x.go"]) =
    "gosyntect: making request to http://localhost:9238/: connection refused" +:+ newline /\
  stdout (main quoteASCII Base ReadFile Marshal NewRequest unreachable
               (decodeAs (highlighted "<p>")) false [server; "InspiredGitHub"; "x.go"]) = "".
Proof.
  rewrite (main_reports_call_failure quoteASCII Base ReadFile Marshal NewRequest unreachable
             (decodeAs (highlighted "<p>")) false [server; "InspiredGitHub"; "x.go"] "// x"
             (Wrap (errors_New "connection refused")
                   "making request to http://localhost:9238/")).
  - split; reflexivity.
  - repeat split; [left; reflexivity | discriminate].
  - reflexivity.
Defined.

Lemma main_prints_until_bad_region_witness :
  main quoteASCII Base ReadFile Marshal NewRequest (answer 200 "{}")
       (decodeAs partly) true [server; "x.go"] =
    {| stdout := dquote +:+ "//" +:+ dquote +:+ " - comment" +:+ newline;
       stderr := "";
       network := [Sent (requestFor (New server) "// x"); Decoding "{}"];
       status := Panic |}.
Proof.
  rewrite (main_prints_until_bad_region quoteASCII Base ReadFile Marshal NewRequest
             (answer 200 "{}") (decodeAs partly) true [server; "x.go"] "// x"
             [Sent (requestFor (New server) "// x"); Decoding "{}"]
             (toSuccessResponse partly)
             [ {| Offset := 0; Length := 2; Scopes := [0] |} ]
             {| Offset := 2; Length := 5; Scopes := [0] |}
             [ {| Offset := 0; Length := 1; Scopes := [0] |} ]).
  - reflexivity.
  - repeat split; [left; reflexivity | discriminate].
  - reflexivity.
  - reflexivity.
  - reflexivity.
  - int_bounds.
  - repeat constructor; int_bounds.
  - int_bounds.
  - int_bounds.
  - int_bounds.
Defined.

Lemma main_exit_0_only_after_success_witness :
  exists data resp,
    accepted ReadFile true [server; "x.go"] data /\
    snd (Highlight quoteASCII Marshal NewRequest (answer 200 "{}") (decodeAs scopified)
                   (New (Arg [server; "x.go"] 0))
                   (queryOf Base true [server; "x.go"] data)) = Ok resp.
Proof.
  apply (main_exit_0_only_after_success quoteASCII Base ReadFile Marshal NewRequest
           (answer 200 "{}") (decodeAs scopified) true [server; "x.go"]).
  reflexivity.
Defined.

Lemma main_posts_encoded_query_witness :
  exists rest,
    network (main quoteASCII Base ReadFile Marshal NewRequest (answer 200 "{}")
                  (decodeAs (highlighted "<p>")) false
                  [server; "InspiredGitHub"; "x.go"]) =
      Sent {| Method := "POST";
              URL := "http://localhost:9238/";
              ContentType := "application/json";
              Body := "// x" |} :: rest.
Proof.
  apply (main_posts_encoded_query quoteASCII Base ReadFile Marshal NewRequest
           (answer 200 "{}") (decodeAs (highlighted "<p>")) false
           [server; "InspiredGitHub"; "x.go"] "// x" "// x").
  - repeat split; [left; reflexivity | discriminate].
  - reflexivity.
  - reflexivity.
Defined.
End MoreRuns.
